(** * Lornexa backend: the profile CRUD service of [main.py]

    A shallow embedding of the five route handlers of [main.py] and of the
    part of their environment they rely on: the [profiles] table, the
    SQLAlchemy session (unit of work) each handler opens, Python's
    [try]/[except]/[finally], and the way FastAPI turns what a handler
    returns or raises into an HTTP response.

    Conventions.
    - A Python value that may be [None] is an [option]; [None] is [None].
    - Integers ([profile_id], status codes, row ids) are [Z].
    - The committed contents of the table are a list of rows in rowid
      order, which is the order in which the default backend (SQLite,
      [DATABASE_URL] line 16) lists them.
    - The backend can fail where the handlers write and where they read
      back what they wrote: the commit of the request's transaction can
      raise an error ([commit_error], an input of every request), and so
      can the reload of the row after the commit ([reload_error], an input
      of the handlers that reload).  The default backend cannot bind an id
      outside the signed 64-bit integers and raises [OverflowError] for
      it. *)

From stdpp Require Import base list strings pretty.

Local Open Scope Z_scope.
Local Open Scope string_scope.
Local Open Scope list_scope.

(** ** Data transfer objects and the ORM class (lines 44-81) *)

(** [class ProfileCreate(BaseModel)], lines 45-53: the input shape. *)
Module ProfileCreate.

Record t := mk {
  first_name : string;
  last_name : option string;
  gender : option string;
  country : option string;
  ethnicity : option string;
  marital_status : option string;
  date_of_birth : option string;
  autistic : option string
}.

(** [profile.dict()]: every declared field, in declaration order, with the
    value it holds; a field the request left out holds its default [None]
    and is listed all the same. *)
Definition dict (p : t) : list (string * option string) :=
  [ ("first_name", Some (first_name p));
    ("last_name", last_name p);
    ("gender", gender p);
    ("country", country p);
    ("ethnicity", ethnicity p);
    ("marital_status", marital_status p);
    ("date_of_birth", date_of_birth p);
    ("autistic", autistic p) ].

(** A payload in which only [first_name] is set. *)
Definition only (name : string) : t :=
  mk name None None None None None None None.

End ProfileCreate.

(** [class ProfileResponse(BaseModel)], lines 55-67: the output shape. *)
Module ProfileResponse.

Record t := mk {
  id : Z;
  first_name : string;
  last_name : option string;
  gender : option string;
  country : option string;
  ethnicity : option string;
  marital_status : option string;
  date_of_birth : option string;
  autistic : option string
}.

End ProfileResponse.

(** [class Profile(Base)], lines 70-81: an ORM instance, and a row of the
    table.  In Python every attribute of an instance can hold [None]: [id]
    does until the row is inserted, and [nullable=False] on [first_name] is
    a constraint of the table, not of the attribute. *)
Module Profile.

Record t := mk {
  id : option Z;
  first_name : option string;
  last_name : option string;
  gender : option string;
  country : option string;
  ethnicity : option string;
  marital_status : option string;
  date_of_birth : option string;
  autistic : option string
}.

(** The instance as the store hands it back after the INSERT: the same
    columns, with the generated primary key. *)
Definition with_id (k : Z) (p : t) : t :=
  mk (Some k) (first_name p) (last_name p) (gender p) (country p)
     (ethnicity p) (marital_status p) (date_of_birth p) (autistic p).

(** [setattr(db_profile, key, value)] for a text value or [None].  A key
    that names no column leaves the columns as they are. *)
Definition setattr (p : t) (key : string) (value : option string) : t :=
  if String.eqb key "first_name" then
    mk (id p) value (last_name p) (gender p) (country p) (ethnicity p)
       (marital_status p) (date_of_birth p) (autistic p)
  else if String.eqb key "last_name" then
    mk (id p) (first_name p) value (gender p) (country p) (ethnicity p)
       (marital_status p) (date_of_birth p) (autistic p)
  else if String.eqb key "gender" then
    mk (id p) (first_name p) (last_name p) value (country p) (ethnicity p)
       (marital_status p) (date_of_birth p) (autistic p)
  else if String.eqb key "country" then
    mk (id p) (first_name p) (last_name p) (gender p) value (ethnicity p)
       (marital_status p) (date_of_birth p) (autistic p)
  else if String.eqb key "ethnicity" then
    mk (id p) (first_name p) (last_name p) (gender p) (country p) value
       (marital_status p) (date_of_birth p) (autistic p)
  else if String.eqb key "marital_status" then
    mk (id p) (first_name p) (last_name p) (gender p) (country p)
       (ethnicity p) value (date_of_birth p) (autistic p)
  else if String.eqb key "date_of_birth" then
    mk (id p) (first_name p) (last_name p) (gender p) (country p)
       (ethnicity p) (marital_status p) value (autistic p)
  else if String.eqb key "autistic" then
    mk (id p) (first_name p) (last_name p) (gender p) (country p)
       (ethnicity p) (marital_status p) (date_of_birth p) value
  else p.

End Profile.

(** The contents of the table [profiles]. *)
Abbreviation Table := (list Profile.t).

(** [Profile.id == k], the filter of the three single-row queries. *)
Definition has_id (k : Z) (r : Profile.t) : bool :=
  bool_decide (Profile.id r = Some k).

(** ** Exceptions and control flow *)

(** The kinds of exception that occur: the [HTTPException] the handlers
    raise themselves, an error raised by SQLAlchemy, of which only its text
    matters, and the [OverflowError] of the database driver for an integer
    it cannot bind.  All are subclasses of Python's [Exception]. *)
Inductive Exception :=
| HTTPException (status_code : Z) (detail : string)
| SQLAlchemyError (text : string)
| OverflowError (text : string).

(** [str(e)].  Starlette's [HTTPException.__str__] is
    [f"{self.status_code}: {self.detail}"]; for a database error it is the
    error's own text. *)
Definition str (e : Exception) : string :=
  match e with
  | HTTPException status_code detail => (pretty status_code ++ ": " ++ detail)%string
  | SQLAlchemyError text => text
  | OverflowError text => text
  end.

Inductive Outcome (A : Type) :=
| Return (a : A)
| Raise (e : Exception).

Arguments Return {A} a.
Arguments Raise {A} e.

(** The life of an ORM instance inside a session.  [Inserted], [Updated]
    and [Removed] are the states of an instance whose INSERT, UPDATE or
    DELETE a flush has written into the transaction in flight, before the
    transaction is committed or rolled back. *)
Inductive ObjState :=
| Pending | Persistent | Dirty | Deleted | Detached
| Inserted | Updated | Removed.

(** What a handler runs against: the committed table, the error the
    backend raises when this request's transaction is committed (if any),
    and the instances held by the request's session [db], among them the
    writes of the transaction in flight.  A handler's variable that names
    an instance is its index in [db], so that what the session does to the
    instance is seen through the variable. *)
Record State := mkState {
  profiles : Table;
  commit_error : option string;
  db : list (ObjState * Profile.t)
}.

Definition M (A : Type) : Type := State -> Outcome A * State.

Definition ret {A} (a : A) : M A := fun s => (Return a, s).

Definition raise {A} (e : Exception) : M A := fun s => (Raise e, s).

Definition bind {A B} (m : M A) (k : A -> M B) : M B :=
  fun s =>
    match m s with
    | (Return a, s') => k a s'
    | (Raise e, s') => (Raise e, s')
    end.

Notation "'let*' x := m 'in' k" := (bind m (fun x => k))
  (at level 10, x pattern, m at level 100, k at level 200).
Notation "m ;; k" := (bind m (fun _ => k))
  (at level 100, k at level 200, right associativity).

(** [try: body / except Exception as e: handler(e)]: every exception raised
    in [body] is caught, an [HTTPException] like any other. *)
Definition try_except {A} (body : M A) (handler : Exception -> M A) : M A :=
  fun s =>
    match body s with
    | (Return a, s') => (Return a, s')
    | (Raise e, s') => handler e s'
    end.

(** [try: body / finally: cleanup]: [cleanup] runs on every exit, and the
    outcome of [body] stands unless [cleanup] raises itself. *)
Definition try_finally {A} (body : M A) (cleanup : M unit) : M A :=
  fun s =>
    match body s with
    | (o, s') =>
        match cleanup s' with
        | (Return _, s'') => (o, s'')
        | (Raise e, s'') => (Raise e, s'')
        end
    end.

(** [for x in xs: body(x)]. *)
Fixpoint for_each {A} (xs : list A) (body : A -> M unit) : M unit :=
  match xs with
  | [] => ret tt
  | x :: xs' => body x ;; for_each xs' body
  end.

(** ** The session (line 29 and the calls on [db])

    Every handler opens its own session with [SessionLocal()]; the
    dependency [get_db] of lines 87-92 is used by no route and is not
    modelled. *)

(** The id the store gives a row inserted without one: one more than the
    largest id in use, and 1 in an empty table (SQLite's rule for an
    [INTEGER PRIMARY KEY]). *)
Definition next_id (t : Table) : Z :=
  match omap Profile.id t with
  | [] => 1
  | k :: ks => foldr Z.max k ks + 1
  end.

(** Whether the default backend can store and bind an integer, its
    integers being signed 64-bit ones, and the driver's words for an
    integer it cannot bind. *)
Definition fits_int64 (k : Z) : bool :=
  ((- 2 ^ 63 <=? k) && (k <? 2 ^ 63))%Z.

Definition overflow_text : string :=
  "Python int too large to convert to SQLite INTEGER".

(** One write of the transaction in flight, on the table it is made to. *)
Definition write (t : Table) (o : ObjState * Profile.t) : Table :=
  match o with
  | (Inserted, p) => t ++ [p]
  | (Updated, p) =>
      map (fun r => if bool_decide (Profile.id r = Profile.id p) then p else r) t
  | (Removed, p) => filter (fun r => Profile.id r <> Profile.id p) t
  | _ => t
  end.

(** The table as the session's connection sees it: the committed rows with
    the writes of the transaction in flight. *)
Definition view (s : State) : Table := fold_left write (db s) (profiles s).

(** What the flush does for one instance of the session, by its state: an
    INSERT for a pending one, an UPDATE of the row with its primary key for
    a modified one, a DELETE of that row for a deleted one, each written
    into the transaction in flight. *)
Definition flush_one (acc : Table * list (ObjState * Profile.t))
    (o : ObjState * Profile.t) : Table * list (ObjState * Profile.t) :=
  let '(t, seen) := acc in
  match o with
  | (Pending, p) =>
      let p' := Profile.with_id (next_id t) p in
      (write t (Inserted, p'), seen ++ [(Inserted, p')])
  | (Dirty, p) => (write t (Updated, p), seen ++ [(Updated, p)])
  | (Deleted, p) => (write t (Removed, p), seen ++ [(Removed, p)])
  | _ => (write t o, seen ++ [o])
  end.

Definition flush (t : Table) (objs : list (ObjState * Profile.t))
    : Table * list (ObjState * Profile.t) :=
  fold_left flush_one objs (t, []).

(** What the commit makes of an instance whose write was in flight. *)
Definition settle (o : ObjState * Profile.t) : ObjState * Profile.t :=
  match o with
  | (Inserted, p) | (Updated, p) => (Persistent, p)
  | (Removed, p) => (Detached, p)
  | _ => o
  end.

(** [db = SessionLocal()]: a new session, holding no instance. *)
Definition SessionLocal : M unit :=
  fun s => (Return tt, mkState (profiles s) (commit_error s) []).

(** [db.add(obj)]. *)
Definition db_add (obj : Profile.t) : M nat :=
  fun s =>
    (Return (length (db s)),
     mkState (profiles s) (commit_error s) (db s ++ [(Pending, obj)])).

(** [db.commit()]: the session is flushed, which writes its pending work
    into the transaction, and the transaction is committed.  If the backend
    raises its error, the committed table is as it was and the writes stay
    in flight, for the handler to roll back. *)
Definition db_commit : M unit :=
  fun s =>
    let '(t, objs) := flush (profiles s) (db s) in
    match commit_error s with
    | Some text =>
        (Raise (SQLAlchemyError text),
         mkState (profiles s) (commit_error s) objs)
    | None => (Return tt, mkState t None (settle <$> objs))
    end.

(** [db.rollback()]: the transaction in flight is rolled back and the
    pending work of the session is dropped. *)
Definition db_rollback : M unit :=
  fun s => (Return tt, mkState (profiles s) (commit_error s) []).

(** [db.close()]: the session lets go of its instances, and of a
    transaction that is still in flight. *)
Definition db_close : M unit :=
  fun s => (Return tt, mkState (profiles s) (commit_error s) []).

(** [db.refresh(obj)]: load the instance again from its row, with a query
    of its own; [reload_error] is what the backend raises for that query,
    if anything. *)
Definition db_refresh (reload_error : option string) (obj : nat) : M unit :=
  fun s =>
    match reload_error with
    | Some text => (Raise (SQLAlchemyError text), s)
    | None =>
        match db s !! obj with
        | Some (Persistent, p) | Some (Dirty, p) =>
            match Profile.id p with
            | Some k =>
                match find (has_id k) (view s) with
                | Some r =>
                    (Return tt,
                     mkState (profiles s) (commit_error s)
                             (<[obj := (Persistent, r)]> (db s)))
                | None => (Raise (SQLAlchemyError "Could not refresh instance"), s)
                end
            | None => (Raise (SQLAlchemyError "Could not refresh instance"), s)
            end
        | _ => (Raise (SQLAlchemyError "Instance is not persistent within this Session"), s)
        end
    end.

(** [db.delete(obj)]. *)
Definition db_delete (obj : nat) : M unit :=
  fun s =>
    match db s !! obj with
    | Some (Persistent, p) | Some (Dirty, p) =>
        (Return tt,
         mkState (profiles s) (commit_error s) (<[obj := (Deleted, p)]> (db s)))
    | _ => (Raise (SQLAlchemyError "Instance is not persisted"), s)
    end.

(** [db.query(Profile).filter(Profile.id == profile_id).first()]: the first
    row with that id, as an instance of the session, or [None]; and for an
    id that the backend cannot bind, the driver's [OverflowError].  A table
    the backend holds has no row with such an id, and the model raises the
    error where it finds none. *)
Definition query_filter_first (profile_id : Z) : M (option nat) :=
  fun s =>
    match find (has_id profile_id) (view s) with
    | Some r =>
        (Return (Some (length (db s))),
         mkState (profiles s) (commit_error s) (db s ++ [(Persistent, r)]))
    | None =>
        if fits_int64 profile_id then (Return None, s)
        else (Raise (OverflowError overflow_text), s)
    end.

(** [db.query(Profile).all()]. *)
Definition query_all : M (list Profile.t) :=
  fun s =>
    (Return (view s),
     mkState (profiles s) (commit_error s)
             (db s ++ map (fun r => (Persistent, r)) (view s))).

(** [setattr(obj, key, value)] on an instance of the session, which the
    session then knows to be modified. *)
Definition setattr (obj : nat) (key : string) (value : option string) : M unit :=
  fun s =>
    match db s !! obj with
    | Some (st, p) =>
        let st' := match st with Persistent => Dirty | _ => st end in
        (Return tt,
         mkState (profiles s) (commit_error s)
                 (<[obj := (st', Profile.setattr p key value)]> (db s)))
    | None => (Return tt, s)
    end.

(** Reading the instance a variable names, when the handler returns it.
    The handlers only use the variables the session gave them, so the last
    case does not occur in them. *)
Definition instance (obj : nat) : M Profile.t :=
  fun s =>
    match db s !! obj with
    | Some (_, p) => (Return p, s)
    | None => (Raise (SQLAlchemyError "Instance is not bound to a Session"), s)
    end.

(** ** The handlers (lines 94-184) *)

(** [DATABASE_URL = os.getenv("DATABASE_URL", "sqlite:///./lornexa.db")],
    line 16, from the value of the environment variable if it is set. *)
Definition DATABASE_URL (env : option string) : string :=
  default "sqlite:///./lornexa.db" env.

(** [read_root], lines 94-97. *)
Definition read_root (env : option string) : M (list (string * string)) :=
  let db_type :=
    if String.prefix "sqlite" (DATABASE_URL env) then "SQLite" else "PostgreSQL" in
  ret [("message", "Lornexa Backend API"); ("status", "running");
       ("database", db_type)].

(** Lines 102-122 of [create_profile]: the [try] block with its [except]
    clause, under a backend that raises [reload_error] at the reload. *)
Definition create_profile_try (reload_error : option string)
    (profile : ProfileCreate.t) : M Profile.t :=
  try_except
    (let db_profile :=
       Profile.mk None
         (Some (ProfileCreate.first_name profile))
         (ProfileCreate.last_name profile)
         (ProfileCreate.gender profile)
         (ProfileCreate.country profile)
         (ProfileCreate.ethnicity profile)
         (ProfileCreate.marital_status profile)
         (ProfileCreate.date_of_birth profile)
         (ProfileCreate.autistic profile) in
     let* db_profile := db_add db_profile in
     db_commit ;;
     db_refresh reload_error db_profile ;;
     instance db_profile)
    (fun e =>
       db_rollback ;;
       raise (HTTPException 500 (str e))).

(** [create_profile], lines 99-124, under such a backend, and under one
    whose reload goes through. *)
Definition create_profile_under (reload_error : option string)
    (profile : ProfileCreate.t) : M Profile.t :=
  SessionLocal ;;
  try_finally (create_profile_try reload_error profile) db_close.

Definition create_profile (profile : ProfileCreate.t) : M Profile.t :=
  create_profile_under None profile.

(** [get_profile], lines 126-135. *)
Definition get_profile (profile_id : Z) : M Profile.t :=
  SessionLocal ;;
  try_finally
    (let* profile := query_filter_first profile_id in
     match profile with
     | None => raise (HTTPException 404 "Profile not found")
     | Some profile => instance profile
     end)
    db_close.

(** [get_all_profiles], lines 137-144. *)
Definition get_all_profiles : M (list Profile.t) :=
  SessionLocal ;;
  try_finally
    (let* profiles := query_all in
     ret profiles)
    db_close.

(** Lines 149-164 of [update_profile]: the [try] block with its [except]
    clause, under a backend that raises [reload_error] at the reload. *)
Definition update_profile_try (reload_error : option string)
    (profile_id : Z) (profile : ProfileCreate.t) : M Profile.t :=
  try_except
    (let* db_profile := query_filter_first profile_id in
     match db_profile with
     | None => raise (HTTPException 404 "Profile not found")
     | Some db_profile =>
         for_each (ProfileCreate.dict profile)
           (fun '(key, value) => setattr db_profile key value) ;;
         db_commit ;;
         db_refresh reload_error db_profile ;;
         instance db_profile
     end)
    (fun e =>
       db_rollback ;;
       raise (HTTPException 500 (str e))).

(** [update_profile], lines 146-166, under such a backend, and under one
    whose reload goes through. *)
Definition update_profile_under (reload_error : option string)
    (profile_id : Z) (profile : ProfileCreate.t) : M Profile.t :=
  SessionLocal ;;
  try_finally (update_profile_try reload_error profile_id profile) db_close.

Definition update_profile (profile_id : Z) (profile : ProfileCreate.t)
    : M Profile.t :=
  update_profile_under None profile_id profile.

(** Lines 171-182 of [delete_profile]: the [try] block with its [except]
    clause. *)
Definition delete_profile_try (profile_id : Z) : M (list (string * string)) :=
  try_except
    (let* profile := query_filter_first profile_id in
     match profile with
     | None => raise (HTTPException 404 "Profile not found")
     | Some profile =>
         db_delete profile ;;
         db_commit ;;
         ret [("message", "Profile deleted successfully")]
     end)
    (fun e =>
       db_rollback ;;
       raise (HTTPException 500 (str e))).

(** [delete_profile], lines 168-184. *)
Definition delete_profile (profile_id : Z) : M (list (string * string)) :=
  SessionLocal ;;
  try_finally (delete_profile_try profile_id) db_close.

(** ** FastAPI: from a handler's outcome to the HTTP response *)

(** The JSON bodies the service answers with. *)
Inductive Body :=
| JProfile (p : ProfileResponse.t)
| JProfiles (ps : list ProfileResponse.t)
| JObject (fields : list (string * string))
| JDetail (detail : string)
| InternalServerError.

Record Response := mkResponse {
  status_code : Z;
  body : Body
}.

(** [response_model=ProfileResponse] with [from_attributes = True]: the
    returned instance is read into the output shape, which needs an integer
    [id] and a text [first_name]. *)
Definition validate (p : Profile.t) : option ProfileResponse.t :=
  match Profile.id p, Profile.first_name p with
  | Some k, Some name =>
      Some (ProfileResponse.mk k name (Profile.last_name p) (Profile.gender p)
              (Profile.country p) (Profile.ethnicity p)
              (Profile.marital_status p) (Profile.date_of_birth p)
              (Profile.autistic p))
  | _, _ => None
  end.

(** One request: the handler runs against the table and the backend's
    condition, and FastAPI answers
    - with the route's success status and the validated return value; no
      decorator of [main.py] sets [status_code], so that status is the
      default 200 for every route;
    - with the status and detail of an [HTTPException] that left the
      handler;
    - with a bare 500 for anything else.
    The result is the response together with the table afterwards. *)
Definition serve {A} (response_model : A -> option Body) (endpoint : M A)
    (error : option string) (table : Table) : Response * Table :=
  let '(o, s) := endpoint (mkState table error []) in
  (match o with
   | Return a =>
       match response_model a with
       | Some b => mkResponse 200 b
       | None => mkResponse 500 InternalServerError
       end
   | Raise (HTTPException code detail) => mkResponse code (JDetail detail)
   | Raise (SQLAlchemyError _) => mkResponse 500 InternalServerError
   | Raise (OverflowError _) => mkResponse 500 InternalServerError
   end,
   profiles s).

(** The six routes, by method and path (lines 94, 99, 126, 137, 146, 168). *)
Definition GET_root (env : option string) :=
  serve (fun d => Some (JObject d)) (read_root env).

Definition POST_profiles (profile : ProfileCreate.t) :=
  serve (fun p => JProfile <$> validate p) (create_profile profile).

Definition GET_profile (profile_id : Z) :=
  serve (fun p => JProfile <$> validate p) (get_profile profile_id).

Definition GET_profiles :=
  serve (fun ps => JProfiles <$> mapM validate ps) get_all_profiles.

Definition PUT_profile (profile_id : Z) (profile : ProfileCreate.t) :=
  serve (fun p => JProfile <$> validate p) (update_profile profile_id profile).

Definition DELETE_profile (profile_id : Z) :=
  serve (fun d => Some (JObject d)) (delete_profile profile_id).

(** The input shape [p] extended with the id [k]. *)
Definition with_id (k : Z) (p : ProfileCreate.t) : ProfileResponse.t :=
  ProfileResponse.mk k
    (ProfileCreate.first_name p) (ProfileCreate.last_name p)
    (ProfileCreate.gender p) (ProfileCreate.country p)
    (ProfileCreate.ethnicity p) (ProfileCreate.marital_status p)
    (ProfileCreate.date_of_birth p) (ProfileCreate.autistic p).

(** The row that holds the input shape [p] under the id [k]. *)
Definition row (k : Z) (p : ProfileCreate.t) : Profile.t :=
  Profile.mk (Some k)
    (Some (ProfileCreate.first_name p)) (ProfileCreate.last_name p)
    (ProfileCreate.gender p) (ProfileCreate.country p)
    (ProfileCreate.ethnicity p) (ProfileCreate.marital_status p)
    (ProfileCreate.date_of_birth p) (ProfileCreate.autistic p).

(** Whether the table holds a row with the id [k]. *)
Definition stored (k : Z) (t : Table) : bool := existsb (has_id k) t.

(** The constraints the schema (lines 73-74) puts on the table: every row
    has an id and a [first_name], and no two rows share an id. *)
Definition schema (t : Table) : bool :=
  forallb (fun r => bool_decide (is_Some (Profile.id r))
                    && bool_decide (is_Some (Profile.first_name r))) t
  && bool_decide (NoDup (Profile.id <$> t)).

(** The requests a client can make, and what each does to a table. *)
Inductive Request :=
| Root (env : option string)
| Create (profile : ProfileCreate.t)
| Get (profile_id : Z)
| GetAll
| Update (profile_id : Z) (profile : ProfileCreate.t)
| Delete (profile_id : Z).

Definition perform (q : Request) : option string -> Table -> Response * Table :=
  match q with
  | Root env => GET_root env
  | Create profile => POST_profiles profile
  | Get profile_id => GET_profile profile_id
  | GetAll => GET_profiles
  | Update profile_id profile => PUT_profile profile_id profile
  | Delete profile_id => DELETE_profile profile_id
  end.

(** The table after the UPDATE that writes [p] to the row with the id [k],
    and after the DELETE of that row. *)
Definition updated (k : Z) (p : Profile.t) (t : Table) : Table :=
  map (fun r => if bool_decide (Profile.id r = Some k) then p else r) t.

Definition deleted (k : Z) (t : Table) : Table :=
  filter (fun r => Profile.id r <> Some k) t.

(** Whether a request is a write that gets as far as its persistence step:
    a create always does, an update or a delete does once its row is
    found. *)
Definition reaches_commit (q : Request) (t : Table) : bool :=
  match q with
  | Create _ => true
  | Update profile_id _ | Delete profile_id => stored profile_id t
  | _ => false
  end.

(** What a write does to the table when it goes through. *)
Definition effect (q : Request) (t : Table) : Table :=
  match q with
  | Create profile => t ++ [row (next_id t) profile]
  | Update profile_id profile => updated profile_id (row profile_id profile) t
  | Delete profile_id => deleted profile_id t
  | _ => t
  end.

(** The state a request's handler leaves behind. *)
Definition state_after (q : Request) (s : State) : State :=
  match q with
  | Root env => snd (read_root env s)
  | Create profile => snd (create_profile profile s)
  | Get profile_id => snd (get_profile profile_id s)
  | GetAll => snd (get_all_profiles s)
  | Update profile_id profile => snd (update_profile profile_id profile s)
  | Delete profile_id => snd (delete_profile profile_id s)
  end.

(** A run of creates against a healthy backend, one request after the
    other: the responses, and the table in the end. *)
Fixpoint create_each (payloads : list ProfileCreate.t) (t : Table)
    : list Response * Table :=
  match payloads with
  | [] => ([], t)
  | p :: ps =>
      let '(R, t') := POST_profiles p None t in
      let '(Rs, t'') := create_each ps t' in
      (R :: Rs, t'')
  end.

(** The two payloads of the specification's example, and the table that
    holds the one with a country under the id 1. *)
Definition ana : ProfileCreate.t := ProfileCreate.only "Ana".

Definition ana_pt : ProfileCreate.t :=
  ProfileCreate.mk "Ana" None None (Some "PT") None None None None.

Definition one_row : Table := [row 1 ana_pt].

(** ** The rest of [main.py] *)

(** Lines 19-27: the [connect_args] the engine is created with, which relax
    SQLite's same-thread check and are absent for any other backend. *)
Definition connect_args (url : string) : list (string * bool) :=
  if String.prefix "sqlite" url then [("check_same_thread", false)] else [].

(** A request under a backend that raises [reload_error] at the reload
    after the commit of a create or an update; the other requests reload
    nothing. *)
Definition perform_under (reload_error : option string) (q : Request)
    : option string -> Table -> Response * Table :=
  match q with
  | Create profile =>
      serve (fun p => JProfile <$> validate p)
        (create_profile_under reload_error profile)
  | Update profile_id profile =>
      serve (fun p => JProfile <$> validate p)
        (update_profile_under reload_error profile_id profile)
  | _ => perform q
  end.

(** Where a write stands when its [try] block with the [except] clause is
    left, before the [finally]: the exception on its way out, if any, and
    the state. *)
Definition raised {A} (o : Outcome A) : option Exception :=
  match o with
  | Return _ => None
  | Raise e => Some e
  end.

Definition after_try (reload_error : option string) (q : Request) (s : State)
    : option Exception * State :=
  match q with
  | Create profile =>
      let '(o, s') := create_profile_try reload_error profile s in (raised o, s')
  | Update profile_id profile =>
      let '(o, s') := update_profile_try reload_error profile_id profile s in
      (raised o, s')
  | Delete profile_id =>
      let '(o, s') := delete_profile_try profile_id s in (raised o, s')
  | _ => (None, s)
  end.

(** A run of requests, one after the other, each under the condition the
    backend is in when it arrives: the responses, and the table in the
    end. *)
Fixpoint serve_all (qs : list (Request * option string)) (t : Table)
    : list Response * Table :=
  match qs with
  | [] => ([], t)
  | (q, err) :: qs' =>
      let '(R, t') := perform q err t in
      let '(Rs, t'') := serve_all qs' t' in
      (R :: Rs, t'')
  end.

(** A table of two rows and a payload that sets every field, for the
    examples. *)
Definition bea : ProfileCreate.t :=
  ProfileCreate.mk "Bea" (Some "Lopes") (Some "F") (Some "BR") (Some "Latina")
    (Some "single") (Some "31/12/1990") (Some "no").

Definition two_rows : Table := [row 1 ana_pt; row 2 bea].

(** * Properties *)

(** ** Rows and ids *)

Section Rows.

Implicit Types (t : Table) (r p : Profile.t) (k : Z).

Lemma has_id_true k r : has_id k r = true <-> Profile.id r = Some k.
Proof. unfold has_id. apply bool_decide_eq_true. Qed.

Lemma has_id_false k r : has_id k r = false <-> Profile.id r <> Some k.
Proof. unfold has_id. apply bool_decide_eq_false. Qed.

Lemma find_has_id_Some k t r :
  find (has_id k) t = Some r -> r ∈ t /\ Profile.id r = Some k.
Proof.
  induction t as [|x t IH]; simpl; [discriminate|].
  destruct (has_id k x) eqn:E.
  - intros [= <-]. split; [left | by apply has_id_true].
  - intros H. destruct (IH H). split; [by right | done].
Qed.

Lemma find_has_id_None k t :
  find (has_id k) t = None <-> stored k t = false.
Proof.
  unfold stored. induction t as [|x t IH]; simpl; [done|].
  destruct (has_id k x); simpl; [split; discriminate | exact IH].
Qed.

Lemma stored_true k t :
  stored k t = true <-> exists r, r ∈ t /\ Profile.id r = Some k.
Proof.
  unfold stored. rewrite existsb_exists. split.
  - intros (r & Hin & Hid). exists r. split; [by apply list_elem_of_In | by apply has_id_true].
  - intros (r & Hin & Hid). exists r. split; [by apply list_elem_of_In | by apply has_id_true].
Qed.

Lemma stored_find k t :
  stored k t = true -> exists r, find (has_id k) t = Some r.
Proof.
  intros H. destruct (find (has_id k) t) eqn:E; [by eexists|].
  apply find_has_id_None in E. congruence.
Qed.

Lemma find_has_id_app k t t' :
  find (has_id k) (t ++ t') =
  match find (has_id k) t with
  | Some r => Some r
  | None => find (has_id k) t'
  end.
Proof.
  induction t as [|x t IH]; simpl; [done|].
  by destruct (has_id k x).
Qed.

(** The id the store generates is larger than every id in use. *)
Lemma foldr_max_ge (k x : Z) (ks : list Z) :
  x ∈ k :: ks -> x <= foldr Z.max k ks.
Proof.
  induction ks as [|a ks IH]; simpl.
  - intros ->%list_elem_of_singleton. lia.
  - rewrite !elem_of_cons. intros [->|[->|H]].
    + assert (k <= foldr Z.max k ks) by (apply IH; left). lia.
    + lia.
    + assert (x <= foldr Z.max k ks) by (apply IH; by right). lia.
Qed.

Lemma next_id_above k t r :
  r ∈ t -> Profile.id r = Some k -> k < next_id t.
Proof.
  intros Hin Hid. unfold next_id.
  assert (k ∈ omap Profile.id t) as Hk by (apply list_elem_of_omap; eauto).
  destruct (omap Profile.id t) as [|k0 ks]; [by apply elem_of_nil in Hk|].
  apply foldr_max_ge in Hk. lia.
Qed.

Lemma next_id_fresh t : stored (next_id t) t = false.
Proof.
  destruct (stored (next_id t) t) eqn:E; [|done].
  apply stored_true in E as (r & Hin & Hid).
  pose proof (next_id_above _ _ _ Hin Hid). lia.
Qed.

End Rows.

(** ** What each handler does, case by case *)

Section Handlers.

Implicit Types (t : Table) (r : Profile.t) (k : Z) (profile : ProfileCreate.t).
Implicit Types (objs : list (ObjState * Profile.t)) (err rerr : option string).

Ltac run :=
  unfold create_profile, create_profile_under, create_profile_try,
    get_profile, get_all_profiles,
    update_profile, update_profile_under, update_profile_try,
    delete_profile, delete_profile_try, read_root,
    try_finally, try_except, bind, ret, raise,
    SessionLocal, db_add, db_commit, db_rollback, db_refresh,
    db_delete, db_close, query_filter_first, query_all, instance, flush, view;
  cbn -[next_id find filter fits_int64]; unfold Profile.with_id;
  cbn -[next_id find filter fits_int64].

Lemma find_has_id_row k profile t :
  stored k t = false ->
  find (has_id k) (t ++ [row k profile]) = Some (row k profile).
Proof.
  intros H. rewrite find_has_id_app.
  apply find_has_id_None in H. rewrite H. simpl.
  unfold has_id. simpl. by rewrite bool_decide_true.
Qed.

Lemma find_has_id_updated k p r t :
  Profile.id p = Some k ->
  find (has_id k) t = Some r ->
  find (has_id k) (updated k p t) = Some p.
Proof.
  intros Hp. unfold updated. induction t as [|x t IH]; simpl; [discriminate|].
  destruct (has_id k x) eqn:E.
  - apply has_id_true in E. rewrite bool_decide_true by done.
    by rewrite (proj2 (has_id_true k p) Hp).
  - apply has_id_false in E. rewrite bool_decide_false by done.
    by rewrite (proj2 (has_id_false k x) E).
Qed.

Lemma find_has_id_deleted k t : find (has_id k) (deleted k t) = None.
Proof.
  apply find_has_id_None. destruct (stored k (deleted k t)) eqn:E; [|done].
  apply stored_true in E as (r & Hin & Hid).
  apply list_elem_of_filter in Hin as [Hne _]. done.
Qed.

(** On a table whose ids the backend can all hold, the lookup of an id it
    cannot bind finds no row, so it raises the driver's error, whatever the
    table. *)
Lemma query_filter_first_overflow k err t :
  (forall r k', r ∈ t -> Profile.id r = Some k' -> fits_int64 k' = true) ->
  fits_int64 k = false ->
  query_filter_first k (mkState t err []) =
  (Raise (OverflowError overflow_text), mkState t err []).
Proof.
  intros Hfit Hk. unfold query_filter_first, view. cbn [db profiles fold_left].
  destruct (find (has_id k) t) as [r|] eqn:E.
  - destruct (find_has_id_Some _ _ _ E) as [Hin Hid].
    rewrite (Hfit r k Hin Hid) in Hk. discriminate.
  - by rewrite Hk.
Qed.

(** *** [create_profile] *)

Lemma create_profile_healthy profile t objs :
  create_profile profile (mkState t None objs) =
  (Return (row (next_id t) profile),
   mkState (t ++ [row (next_id t) profile]) None []).
Proof.
  run. fold (row (next_id t) profile).
  by rewrite find_has_id_row by apply next_id_fresh.
Qed.

Lemma create_profile_try_failing rerr profile e t :
  create_profile_try rerr profile (mkState t (Some e) []) =
  (Raise (HTTPException 500 e), mkState t (Some e) []).
Proof. by run. Qed.

Lemma create_profile_under_failing rerr profile e t objs :
  create_profile_under rerr profile (mkState t (Some e) objs) =
  (Raise (HTTPException 500 e), mkState t (Some e) []).
Proof. by run. Qed.

Lemma create_profile_failing profile e t objs :
  create_profile profile (mkState t (Some e) objs) =
  (Raise (HTTPException 500 e), mkState t (Some e) []).
Proof. apply create_profile_under_failing. Qed.

Lemma create_profile_under_reload_failing x profile t objs :
  create_profile_under (Some x) profile (mkState t None objs) =
  (Raise (HTTPException 500 x),
   mkState (t ++ [row (next_id t) profile]) None []).
Proof. by run. Qed.

(** *** [get_profile] and [get_all_profiles] *)

Lemma get_profile_found k r err t objs :
  find (has_id k) t = Some r ->
  get_profile k (mkState t err objs) = (Return r, mkState t err []).
Proof. intros H. run. by rewrite H. Qed.

Lemma get_profile_missing k err t objs :
  find (has_id k) t = None ->
  fits_int64 k = true ->
  get_profile k (mkState t err objs) =
  (Raise (HTTPException 404 "Profile not found"), mkState t err []).
Proof. intros H Hk. run. by rewrite H, Hk. Qed.

Lemma get_profile_overflow k err t objs :
  find (has_id k) t = None ->
  fits_int64 k = false ->
  get_profile k (mkState t err objs) =
  (Raise (OverflowError overflow_text), mkState t err []).
Proof. intros H Hk. run. by rewrite H, Hk. Qed.

Lemma get_all_profiles_run err t objs :
  get_all_profiles (mkState t err objs) = (Return t, mkState t err []).
Proof. by run. Qed.

(** *** [update_profile] *)

Lemma update_profile_healthy k profile r t objs :
  find (has_id k) t = Some r ->
  update_profile k profile (mkState t None objs) =
  (Return (row k profile), mkState (updated k (row k profile) t) None []).
Proof.
  intros H. destruct (find_has_id_Some _ _ _ H) as [_ Hid].
  run. rewrite H. cbn -[next_id find filter fits_int64]. rewrite Hid.
  fold (row k profile). fold (updated k (row k profile) t).
  by rewrite (find_has_id_updated k (row k profile) r t).
Qed.

Lemma update_profile_try_failing rerr k profile r e t :
  find (has_id k) t = Some r ->
  update_profile_try rerr k profile (mkState t (Some e) []) =
  (Raise (HTTPException 500 e), mkState t (Some e) []).
Proof. intros H. run. rewrite H. by cbn. Qed.

Lemma update_profile_under_failing rerr k profile r e t objs :
  find (has_id k) t = Some r ->
  update_profile_under rerr k profile (mkState t (Some e) objs) =
  (Raise (HTTPException 500 e), mkState t (Some e) []).
Proof. intros H. run. rewrite H. by cbn. Qed.

Lemma update_profile_failing k profile r e t objs :
  find (has_id k) t = Some r ->
  update_profile k profile (mkState t (Some e) objs) =
  (Raise (HTTPException 500 e), mkState t (Some e) []).
Proof. apply update_profile_under_failing. Qed.

Lemma update_profile_under_reload_failing x k profile r t objs :
  find (has_id k) t = Some r ->
  update_profile_under (Some x) k profile (mkState t None objs) =
  (Raise (HTTPException 500 x),
   mkState (updated k (row k profile) t) None []).
Proof.
  intros H. destruct (find_has_id_Some _ _ _ H) as [_ Hid].
  run. rewrite H. cbn -[next_id find filter fits_int64]. by rewrite Hid.
Qed.

Lemma update_profile_under_missing rerr k profile err t objs :
  find (has_id k) t = None ->
  fits_int64 k = true ->
  update_profile_under rerr k profile (mkState t err objs) =
  (Raise (HTTPException 500 "404: Profile not found"), mkState t err []).
Proof. intros H Hk. run. rewrite H, Hk. by cbn. Qed.

Lemma update_profile_missing k profile err t objs :
  find (has_id k) t = None ->
  fits_int64 k = true ->
  update_profile k profile (mkState t err objs) =
  (Raise (HTTPException 500 "404: Profile not found"), mkState t err []).
Proof. apply update_profile_under_missing. Qed.

Lemma update_profile_under_overflow rerr k profile err t objs :
  find (has_id k) t = None ->
  fits_int64 k = false ->
  update_profile_under rerr k profile (mkState t err objs) =
  (Raise (HTTPException 500 overflow_text), mkState t err []).
Proof. intros H Hk. run. rewrite H, Hk. by cbn. Qed.

Lemma update_profile_overflow k profile err t objs :
  find (has_id k) t = None ->
  fits_int64 k = false ->
  update_profile k profile (mkState t err objs) =
  (Raise (HTTPException 500 overflow_text), mkState t err []).
Proof. apply update_profile_under_overflow. Qed.

(** *** [delete_profile] *)

Lemma delete_profile_healthy k r t objs :
  find (has_id k) t = Some r ->
  delete_profile k (mkState t None objs) =
  (Return [("message", "Profile deleted successfully")],
   mkState (deleted k t) None []).
Proof.
  intros H. destruct (find_has_id_Some _ _ _ H) as [_ Hid].
  run. rewrite H. cbn -[next_id find filter fits_int64]. by rewrite Hid.
Qed.

Lemma delete_profile_try_failing k r e t :
  find (has_id k) t = Some r ->
  delete_profile_try k (mkState t (Some e) []) =
  (Raise (HTTPException 500 e), mkState t (Some e) []).
Proof. intros H. run. rewrite H. by cbn. Qed.

Lemma delete_profile_failing k r e t objs :
  find (has_id k) t = Some r ->
  delete_profile k (mkState t (Some e) objs) =
  (Raise (HTTPException 500 e), mkState t (Some e) []).
Proof. intros H. run. rewrite H. by cbn. Qed.

Lemma delete_profile_missing k err t objs :
  find (has_id k) t = None ->
  fits_int64 k = true ->
  delete_profile k (mkState t err objs) =
  (Raise (HTTPException 500 "404: Profile not found"), mkState t err []).
Proof. intros H Hk. run. rewrite H, Hk. by cbn. Qed.

Lemma delete_profile_overflow k err t objs :
  find (has_id k) t = None ->
  fits_int64 k = false ->
  delete_profile k (mkState t err objs) =
  (Raise (HTTPException 500 overflow_text), mkState t err []).
Proof. intros H Hk. run. rewrite H, Hk. by cbn. Qed.

End Handlers.

(** ** What each route answers, case by case *)

Section Routes.

Implicit Types (t : Table) (r : Profile.t) (k : Z) (profile : ProfileCreate.t).
Implicit Types (err rerr : option string) (e : string).

Lemma validate_row k profile : validate (row k profile) = Some (with_id k profile).
Proof. reflexivity. Qed.

Lemma POST_profiles_healthy profile t :
  POST_profiles profile None t =
  (mkResponse 200 (JProfile (with_id (next_id t) profile)),
   t ++ [row (next_id t) profile]).
Proof.
  unfold POST_profiles, serve. by rewrite create_profile_healthy.
Qed.

Lemma POST_profiles_failing profile e t :
  POST_profiles profile (Some e) t = (mkResponse 500 (JDetail e), t).
Proof.
  unfold POST_profiles, serve. by rewrite create_profile_failing.
Qed.

Lemma GET_profile_found k r err t :
  find (has_id k) t = Some r ->
  GET_profile k err t =
  (match validate r with
   | Some P => mkResponse 200 (JProfile P)
   | None => mkResponse 500 InternalServerError
   end, t).
Proof.
  intros H. unfold GET_profile, serve. rewrite (get_profile_found k r) by done.
  simpl. by destruct (validate r).
Qed.

Lemma GET_profile_missing k err t :
  stored k t = false ->
  fits_int64 k = true ->
  GET_profile k err t = (mkResponse 404 (JDetail "Profile not found"), t).
Proof.
  intros H%find_has_id_None Hk. unfold GET_profile, serve.
  by rewrite get_profile_missing.
Qed.

Lemma GET_profile_overflow k err t :
  stored k t = false ->
  fits_int64 k = false ->
  GET_profile k err t = (mkResponse 500 InternalServerError, t).
Proof.
  intros H%find_has_id_None Hk. unfold GET_profile, serve.
  by rewrite get_profile_overflow.
Qed.

Lemma GET_profiles_run err t :
  GET_profiles err t =
  (match mapM validate t with
   | Some Ps => mkResponse 200 (JProfiles Ps)
   | None => mkResponse 500 InternalServerError
   end, t).
Proof.
  unfold GET_profiles, serve. rewrite get_all_profiles_run. simpl.
  by destruct (mapM validate t).
Qed.

Lemma PUT_profile_healthy k profile t :
  stored k t = true ->
  PUT_profile k profile None t =
  (mkResponse 200 (JProfile (with_id k profile)), updated k (row k profile) t).
Proof.
  intros [r H]%stored_find. unfold PUT_profile, serve.
  by rewrite (update_profile_healthy k profile r).
Qed.

Lemma PUT_profile_failing k profile e t :
  stored k t = true ->
  PUT_profile k profile (Some e) t = (mkResponse 500 (JDetail e), t).
Proof.
  intros [r H]%stored_find. unfold PUT_profile, serve.
  by rewrite (update_profile_failing k profile r).
Qed.

Lemma PUT_profile_missing k profile err t :
  stored k t = false ->
  fits_int64 k = true ->
  PUT_profile k profile err t =
  (mkResponse 500 (JDetail "404: Profile not found"), t).
Proof.
  intros H%find_has_id_None Hk. unfold PUT_profile, serve.
  by rewrite update_profile_missing.
Qed.

Lemma PUT_profile_overflow k profile err t :
  stored k t = false ->
  fits_int64 k = false ->
  PUT_profile k profile err t = (mkResponse 500 (JDetail overflow_text), t).
Proof.
  intros H%find_has_id_None Hk. unfold PUT_profile, serve.
  by rewrite update_profile_overflow.
Qed.

Lemma DELETE_profile_healthy k t :
  stored k t = true ->
  DELETE_profile k None t =
  (mkResponse 200 (JObject [("message", "Profile deleted successfully")]),
   deleted k t).
Proof.
  intros [r H]%stored_find. unfold DELETE_profile, serve.
  by rewrite (delete_profile_healthy k r).
Qed.

Lemma DELETE_profile_failing k e t :
  stored k t = true ->
  DELETE_profile k (Some e) t = (mkResponse 500 (JDetail e), t).
Proof.
  intros [r H]%stored_find. unfold DELETE_profile, serve.
  by rewrite (delete_profile_failing k r).
Qed.

Lemma DELETE_profile_missing k err t :
  stored k t = false ->
  fits_int64 k = true ->
  DELETE_profile k err t =
  (mkResponse 500 (JDetail "404: Profile not found"), t).
Proof.
  intros H%find_has_id_None Hk. unfold DELETE_profile, serve.
  by rewrite delete_profile_missing.
Qed.

Lemma DELETE_profile_overflow k err t :
  stored k t = false ->
  fits_int64 k = false ->
  DELETE_profile k err t = (mkResponse 500 (JDetail overflow_text), t).
Proof.
  intros H%find_has_id_None Hk. unfold DELETE_profile, serve.
  by rewrite delete_profile_overflow.
Qed.

(** Under a backend whose reload may fail. *)
Lemma perform_under_None (q : Request) : perform_under None q = perform q.
Proof. by destruct q. Qed.

Lemma perform_under_commit_failing rerr (q : Request) e t :
  reaches_commit q t = true ->
  perform_under rerr q (Some e) t = (mkResponse 500 (JDetail e), t).
Proof.
  destruct q as [env|profile|k| |k profile|k];
    cbn [perform_under perform reaches_commit]; try discriminate; intros H.
  - unfold serve. by rewrite create_profile_under_failing.
  - destruct (stored_find _ _ H) as [r Hr]. unfold serve.
    by rewrite (update_profile_under_failing rerr k profile r).
  - by apply DELETE_profile_failing.
Qed.

Lemma perform_under_reload_failing x (q : Request) t :
  reaches_commit q t = true ->
  perform_under (Some x) q None t =
  match q with
  | Delete _ => perform q None t
  | _ => (mkResponse 500 (JDetail x), effect q t)
  end.
Proof.
  destruct q as [env|profile|k| |k profile|k];
    cbn [perform_under perform reaches_commit effect]; try discriminate;
    intros H; [| |done].
  - unfold serve. by rewrite create_profile_under_reload_failing.
  - destruct (stored_find _ _ H) as [r Hr]. unfold serve.
    by rewrite (update_profile_under_reload_failing x k profile r).
Qed.

Lemma perform_under_update_unstored rerr k profile err t :
  stored k t = false ->
  perform_under rerr (Update k profile) err t =
  (mkResponse 500
     (JDetail (if fits_int64 k then "404: Profile not found" else overflow_text)),
   t).
Proof.
  intros H%find_has_id_None. cbn [perform_under]. unfold serve.
  destruct (fits_int64 k) eqn:Hk.
  - by rewrite update_profile_under_missing.
  - by rewrite update_profile_under_overflow.
Qed.

Lemma GET_root_run env err t :
  snd (GET_root env err t) = t /\ status_code (fst (GET_root env err t)) = 200.
Proof. done. Qed.

Lemma stored_deleted k t : stored k (deleted k t) = false.
Proof. apply find_has_id_None, find_has_id_deleted. Qed.

Lemma stored_updated k p t :
  Profile.id p = Some k -> stored k t = true -> stored k (updated k p t) = true.
Proof.
  intros Hp [r H]%stored_find.
  destruct (stored k (updated k p t)) eqn:E; [done|].
  apply find_has_id_None in E.
  by rewrite (find_has_id_updated k p r t) in E.
Qed.

End Routes.

(** ** The claims about single requests *)

(** C1.  For an id that is in the table and any payload, a PUT on a healthy
    backend answers with the payload extended with the id, and a GET of the
    id right after it answers with exactly the same: every field is the
    payload's, so a field the payload leaves out ([None]) reads back as
    [None] whatever the row held before. *)
Theorem update_then_get (profile_id : Z) (newShape : ProfileCreate.t) (t : Table) :
  stored profile_id t = true ->
  let '(R, t') := PUT_profile profile_id newShape None t in
  R = mkResponse 200 (JProfile (with_id profile_id newShape)) /\
  forall err,
    GET_profile profile_id err t' =
    (mkResponse 200 (JProfile (with_id profile_id newShape)), t').
Proof.
  intros H. rewrite PUT_profile_healthy by done. split; [done|].
  intros err.
  destruct (stored_find _ _ H) as [r Hr].
  rewrite (GET_profile_found profile_id (row profile_id newShape)).
  - by rewrite validate_row.
  - by apply (find_has_id_updated _ _ r).
Qed.

Lemma update_then_get_witness :
  stored 1 one_row = true /\
  let '(R, t') := PUT_profile 1 ana None one_row in
  R = mkResponse 200 (JProfile (with_id 1 ana)) /\
  forall err, GET_profile 1 err t' = (mkResponse 200 (JProfile (with_id 1 ana)), t').
Proof.
  split; [reflexivity | apply (update_then_get 1 ana one_row); reflexivity].
Defined.

(** C2.  A create whose payload sets only [first_name] succeeds on a
    healthy backend: the answer carries a row whose id is the one the store
    generated, an id no row of the table had, whose [first_name] is the
    payload's and whose seven other fields are all [None]. *)
Theorem create_only_first_name (name : string) (t : Table) :
  let '(R, t') := POST_profiles (ProfileCreate.only name) None t in
  body R =
    JProfile (ProfileResponse.mk (next_id t) name
                None None None None None None None) /\
  status_code R = 200 /\
  stored (next_id t) t = false /\
  stored (next_id t) t' = true.
Proof.
  rewrite POST_profiles_healthy. repeat split.
  - apply next_id_fresh.
  - apply stored_true. exists (row (next_id t) (ProfileCreate.only name)).
    split; [|done]. apply elem_of_app. right. by left.
Qed.

(** C3.  Whenever a create answers with a profile [P], that profile is the
    payload, field for field, under its id, and a GET of [P]'s id on the
    table the create left answers with [P] again. *)
Theorem get_after_create (profile : ProfileCreate.t) (err : option string)
    (t : Table) (P : ProfileResponse.t) :
  body (fst (POST_profiles profile err t)) = JProfile P ->
  P = with_id (ProfileResponse.id P) profile /\
  forall err',
    GET_profile (ProfileResponse.id P) err' (snd (POST_profiles profile err t)) =
    (mkResponse 200 (JProfile P), snd (POST_profiles profile err t)).
Proof.
  destruct err as [e|].
  - rewrite POST_profiles_failing. discriminate.
  - rewrite POST_profiles_healthy. simpl. intros [= <-]. split; [done|].
    intros err'. simpl.
    rewrite (GET_profile_found _ (row (next_id t) profile)).
    + by rewrite validate_row.
    + apply find_has_id_row, next_id_fresh.
Qed.

Lemma get_after_create_witness :
  with_id 2 ana = with_id (ProfileResponse.id (with_id 2 ana)) ana /\
  forall err',
    GET_profile (ProfileResponse.id (with_id 2 ana)) err'
      (snd (POST_profiles ana None one_row)) =
    (mkResponse 200 (JProfile (with_id 2 ana)),
     snd (POST_profiles ana None one_row)).
Proof.
  apply (get_after_create ana None one_row (with_id 2 ana)). reflexivity.
Defined.

(** C4, as the code has it.  A GET of an id within the signed 64-bit
    integers that no row of the table has answers 404 with the detail
    "Profile not found", the same for every such id and whatever the
    backend's condition, and leaves the table as it is. *)
Theorem get_not_found_within_int64 (profile_id : Z) (err : option string)
    (t : Table) :
  fits_int64 profile_id = true ->
  stored profile_id t = false ->
  GET_profile profile_id err t =
  (mkResponse 404 (JDetail "Profile not found"), t).
Proof. intros Hk H. by apply GET_profile_missing. Qed.

Lemma get_not_found_within_int64_witness :
  fits_int64 5 = true /\ stored 5 one_row = false /\
  GET_profile 5 None one_row =
  (mkResponse 404 (JDetail "Profile not found"), one_row).
Proof.
  split; [reflexivity|]. split; [reflexivity|].
  apply (get_not_found_within_int64 5 None one_row); reflexivity.
Defined.

(** C4 as stated fails: no row has the id 2^63, and the GET of it answers
    a bare 500, not the 404: the driver cannot bind the id, and nothing in
    [get_profile] catches its [OverflowError]. *)
Lemma get_beyond_int64_is_not_404 :
  stored (2 ^ 63) [] = false /\
  GET_profile (2 ^ 63) None [] = (mkResponse 500 InternalServerError, []) /\
  fst (GET_profile (2 ^ 63) None []) <>
  mkResponse 404 (JDetail "Profile not found").
Proof. vm_compute. repeat split; discriminate. Qed.

(** C5 (the code departs from it).  After a successful DELETE a GET of the
    id answers 404, but a second DELETE of the same id, like a DELETE of an
    id that never existed, answers 500 and not 404: the 404 raised at line
    174 is caught by the [except Exception] of line 180 and raised again
    as a 500 whose detail is the text of the 404. *)
Theorem delete_missing_answers_500 :
  let '(R1, t1) := DELETE_profile 1 None one_row in
  R1 = mkResponse 200 (JObject [("message", "Profile deleted successfully")]) /\
  fst (GET_profile 1 None t1) = mkResponse 404 (JDetail "Profile not found") /\
  DELETE_profile 1 None t1 =
    (mkResponse 500 (JDetail "404: Profile not found"), t1) /\
  DELETE_profile 7 None [] =
    (mkResponse 500 (JDetail "404: Profile not found"), []).
Proof. vm_compute. done. Qed.

(** C6, as the code has it.  When a write gets as far as its commit and
    the commit raises an error, then whatever the reload would have done:
    the answer is a 500 whose detail is the text of the error and the table
    is what it was; when the [except] clause raises that 500 the rollback
    has left nothing of the transaction in flight, and the committed table
    is as before; and the handler ends with its session empty.  With
    respect to the commit the write is all or nothing: on a backend whose
    reload goes through it either answers 200 and the table holds its whole
    effect, or it answers an error and the table is unchanged. *)
Theorem commit_failure_rolls_back (q : Request) (e : string)
    (reload_error : option string) (t : Table) :
  reaches_commit q t = true ->
  perform_under reload_error q (Some e) t = (mkResponse 500 (JDetail e), t) /\
  after_try reload_error q (mkState t (Some e) []) =
    (Some (HTTPException 500 e), mkState t (Some e) []) /\
  state_after q (mkState t (Some e) []) = mkState t (Some e) [] /\
  forall err,
    let '(R, t') := perform q err t in
    (status_code R = 200 /\ t' = effect q t) \/
    (status_code R <> 200 /\ t' = t).
Proof.
  intros H. split; [by apply perform_under_commit_failing|].
  destruct q as [env|profile|k| |k profile|k];
    cbn [perform reaches_commit after_try state_after effect] in *;
    try discriminate.
  - split; [by rewrite create_profile_try_failing|]. split.
    + by rewrite create_profile_failing.
    + intros [e'|].
      * rewrite POST_profiles_failing. by right.
      * rewrite POST_profiles_healthy. by left.
  - destruct (stored_find _ _ H) as [r Hr].
    split; [by rewrite (update_profile_try_failing reload_error k profile r)|].
    split.
    + by rewrite (update_profile_failing k profile r).
    + intros [e'|].
      * rewrite PUT_profile_failing by done. by right.
      * rewrite PUT_profile_healthy by done. by left.
  - destruct (stored_find _ _ H) as [r Hr].
    split; [by rewrite (delete_profile_try_failing k r)|]. split.
    + by rewrite (delete_profile_failing k r).
    + intros [e'|].
      * rewrite DELETE_profile_failing by done. by right.
      * rewrite DELETE_profile_healthy by done. by left.
Qed.

Lemma commit_failure_rolls_back_witness :
  reaches_commit (Update 1 ana) one_row = true /\
  perform_under (Some "connection lost") (Update 1 ana)
    (Some "disk I/O error") one_row =
    (mkResponse 500 (JDetail "disk I/O error"), one_row) /\
  after_try (Some "connection lost") (Update 1 ana)
    (mkState one_row (Some "disk I/O error") []) =
    (Some (HTTPException 500 "disk I/O error"),
     mkState one_row (Some "disk I/O error") []) /\
  state_after (Update 1 ana) (mkState one_row (Some "disk I/O error") []) =
    mkState one_row (Some "disk I/O error") [] /\
  forall err,
    let '(R, t') := perform (Update 1 ana) err one_row in
    (status_code R = 200 /\ t' = effect (Update 1 ana) one_row) \/
    (status_code R <> 200 /\ t' = one_row).
Proof.
  split; [reflexivity|].
  apply (commit_failure_rolls_back (Update 1 ana) "disk I/O error"
           (Some "connection lost") one_row).
  reflexivity.
Defined.

(** C6 as stated fails: it is not so that every write is all or nothing.
    When the commit goes through and the reload of the row that follows it
    in the same [try] block (lines 117 and 159) raises an error, the create
    and the update answer 500 with the text of that error, and the row is
    stored all the same. *)
Lemma reload_failure_keeps_the_write :
  perform_under (Some "connection lost") (Create ana) None [] =
    (mkResponse 500 (JDetail "connection lost"), [row 1 ana]) /\
  perform_under (Some "connection lost") (Update 1 ana) None one_row =
    (mkResponse 500 (JDetail "connection lost"), [row 1 ana]) /\
  [row 1 ana] <> [] /\ [row 1 ana] <> one_row.
Proof. vm_compute. repeat split; discriminate. Qed.

(** C7, as the code has it.  A create on a healthy backend answers with
    status 200, the default of a route whose decorator sets no status, and
    with the whole row: the payload under the id the store generated, which
    is the row the table then ends with. *)
Theorem create_answers_200_with_row (profile : ProfileCreate.t) (t : Table) :
  POST_profiles profile None t =
  (mkResponse 200 (JProfile (with_id (next_id t) profile)),
   t ++ [row (next_id t) profile]).
Proof. apply POST_profiles_healthy. Qed.

(** C7 as stated fails: the create of the specification's example succeeds
    and its status is 200, not 201. *)
Lemma create_status_is_not_201 :
  fst (POST_profiles ana None []) = mkResponse 200 (JProfile (with_id 1 ana)) /\
  status_code (fst (POST_profiles ana None [])) <> 201.
Proof. vm_compute. split; [done | discriminate]. Qed.

(** C10.  A read leaves the table as it is: the root endpoint, a GET of one
    profile, found or not, and the listing, whatever the backend's
    condition; and in the handlers' own terms, the committed rows of the
    state a read handler leaves are those of the state it started from,
    whatever its session held. *)
Theorem reads_leave_the_table (t : Table) (err : option string) :
  (forall env, snd (GET_root env err t) = t) /\
  (forall profile_id, snd (GET_profile profile_id err t) = t) /\
  snd (GET_profiles err t) = t /\
  (forall env objs, profiles (snd (read_root env (mkState t err objs))) = t) /\
  (forall profile_id objs,
     profiles (snd (get_profile profile_id (mkState t err objs))) = t) /\
  (forall objs, profiles (snd (get_all_profiles (mkState t err objs))) = t).
Proof.
  split; [done|]. split; [|split; [|split; [done|split]]].
  - intros k. destruct (find (has_id k) t) as [r|] eqn:E.
    + by rewrite (GET_profile_found k r).
    + apply find_has_id_None in E. destruct (fits_int64 k) eqn:Hk.
      * by rewrite GET_profile_missing.
      * by rewrite GET_profile_overflow.
  - by rewrite GET_profiles_run.
  - intros k objs. destruct (find (has_id k) t) as [r|] eqn:E.
    + by rewrite (get_profile_found k r).
    + destruct (fits_int64 k) eqn:Hk.
      * by rewrite get_profile_missing.
      * by rewrite get_profile_overflow.
  - intros objs. by rewrite get_all_profiles_run.
Qed.

(** ** The table across requests *)

Section Tables.

Implicit Types (t : Table) (r p : Profile.t) (k : Z) (profile : ProfileCreate.t).

(** The table a request leaves: the whole effect of a write that reached its
    persistence step on a healthy backend, and the table as it was in every
    other case. *)
Lemma snd_perform (q : Request) (err : option string) t :
  snd (perform q err t) =
  match err with
  | None => if reaches_commit q t then effect q t else t
  | Some _ => t
  end.
Proof.
  destruct q as [env|profile|k| |k profile|k];
    cbn [perform reaches_commit effect].
  - by destruct err.
  - destruct err; [by rewrite POST_profiles_failing | by rewrite POST_profiles_healthy].
  - destruct (find (has_id k) t) as [r|] eqn:E.
    + rewrite (GET_profile_found k r) by done. by destruct err.
    + apply find_has_id_None in E. destruct (fits_int64 k) eqn:Hk.
      * rewrite GET_profile_missing by done. by destruct err.
      * rewrite GET_profile_overflow by done. by destruct err.
  - rewrite GET_profiles_run. by destruct err.
  - destruct (stored k t) eqn:E.
    + destruct err; [by rewrite PUT_profile_failing | by rewrite PUT_profile_healthy].
    + destruct (fits_int64 k) eqn:Hk.
      * rewrite PUT_profile_missing by done. by destruct err.
      * rewrite PUT_profile_overflow by done. by destruct err.
  - destruct (stored k t) eqn:E.
    + destruct err; [by rewrite DELETE_profile_failing | by rewrite DELETE_profile_healthy].
    + destruct (fits_int64 k) eqn:Hk.
      * rewrite DELETE_profile_missing by done. by destruct err.
      * rewrite DELETE_profile_overflow by done. by destruct err.
Qed.

Lemma schema_true t :
  schema t = true <->
  Forall (fun r => is_Some (Profile.id r) /\ is_Some (Profile.first_name r)) t /\
  NoDup (Profile.id <$> t).
Proof.
  unfold schema. rewrite andb_true_iff, bool_decide_eq_true.
  apply and_iff_compat_r.
  induction t as [|r t IH]; simpl.
  - split; [constructor | done].
  - rewrite !andb_true_iff, !bool_decide_eq_true, IH, Forall_cons. tauto.
Qed.

Lemma ids_updated k p t :
  Profile.id p = Some k -> Profile.id <$> updated k p t = Profile.id <$> t.
Proof.
  intros Hp. unfold updated. induction t as [|r t IH]; simpl; [done|].
  f_equal; [|exact IH]. case_bool_decide; congruence.
Qed.

Lemma schema_created profile t :
  schema t = true -> schema (t ++ [row (next_id t) profile]) = true.
Proof.
  rewrite !schema_true. intros [Hall Hnd]. split.
  - apply Forall_app. split; [done|]. constructor; [|constructor].
    split; by eexists.
  - rewrite fmap_app. apply NoDup_app. split; [done|]. split.
    + intros x (r & -> & Hin)%list_elem_of_fmap [Hx|Hx%elem_of_nil]%elem_of_cons; [|done].
      simpl in Hx. pose proof (next_id_above _ _ _ Hin Hx). lia.
    + apply NoDup_singleton.
Qed.

Lemma schema_updated k profile t :
  schema t = true -> schema (updated k (row k profile) t) = true.
Proof.
  rewrite !schema_true. intros [Hall Hnd]. split.
  - unfold updated. apply Forall_fmap. eapply Forall_impl; [exact Hall|].
    intros r Hr. simpl. case_bool_decide; [|done]. split; by eexists.
  - by rewrite ids_updated.
Qed.

Lemma schema_deleted k t : schema t = true -> schema (deleted k t) = true.
Proof.
  rewrite !schema_true. intros [Hall Hnd]. split.
  - apply Forall_forall. intros r [_ Hin]%list_elem_of_filter.
    by apply (proj1 (Forall_forall _ _) Hall).
  - eapply sublist_NoDup; [exact Hnd|]. apply fmap_sublist, sublist_filter.
Qed.

(** The ids a run of creates hands out. *)
Lemma foldr_max_snoc (k n : Z) (ks : list Z) :
  foldr Z.max k (ks ++ [n]) = Z.max (foldr Z.max k ks) n.
Proof. induction ks as [|a ks IH]; simpl; [lia | rewrite IH; lia]. Qed.

Lemma next_id_snoc r t :
  Profile.id r = Some (next_id t) -> next_id (t ++ [r]) = next_id t + 1.
Proof.
  intros Hr. unfold next_id at 1. rewrite omap_app. simpl. rewrite Hr. simpl.
  revert Hr. unfold next_id. destruct (omap Profile.id t) as [|k ks]; simpl.
  - done.
  - intros _. rewrite foldr_max_snoc. lia.
Qed.

Lemma create_each_from profiles t :
  create_each profiles t =
  (imap (fun i profile =>
           mkResponse 200 (JProfile (with_id (next_id t + Z.of_nat i) profile)))
        profiles,
   t ++ imap (fun i profile => row (next_id t + Z.of_nat i) profile) profiles).
Proof.
  revert t. induction profiles as [|profile profiles IH]; intros t; simpl.
  - by rewrite app_nil_r.
  - rewrite POST_profiles_healthy, IH.
    rewrite next_id_snoc by done. rewrite Z.add_0_r, <- app_assoc. simpl.
    f_equal; [f_equal|do 2 f_equal]; apply imap_ext; intros i x _; simpl;
      by replace (next_id t + 1 + Z.of_nat i) with (next_id t + Z.of_nat (S i)) by lia.
Qed.

Lemma mapM_validate_rows (f : nat -> Z) profiles :
  mapM validate (imap (fun i profile => row (f i) profile) profiles) =
  Some (imap (fun i profile => with_id (f i) profile) profiles).
Proof.
  revert f. induction profiles as [|profile profiles IH]; intros f; [done|].
  rewrite !imap_cons. cbn [mapM]. rewrite validate_row. simpl.
  unfold compose. by rewrite (IH (fun i => f (S i))).
Qed.

End Tables.

(** ** The claims about runs of requests *)

(** C8.  Start from the empty table and create the profiles of any list of
    payloads, one after the other, on a healthy backend.  Every create
    succeeds, the i-th answering with the i-th payload under the id it was
    given; and the listing then answers with exactly these entries, as many
    as there were payloads, each the payload of its create extended with
    that id. *)
Theorem get_all_after_creates (payloads : list ProfileCreate.t)
    (err : option string) :
  let '(Rs, t) := create_each payloads [] in
  let entries :=
    imap (fun i profile => with_id (1 + Z.of_nat i) profile) payloads in
  Rs = (fun P => mkResponse 200 (JProfile P)) <$> entries /\
  GET_profiles err t = (mkResponse 200 (JProfiles entries), t) /\
  length entries = length payloads.
Proof.
  rewrite create_each_from. change (next_id []) with 1. cbn zeta.
  rewrite app_nil_l. split; [|split].
  - by rewrite fmap_imap.
  - rewrite GET_profiles_run.
    by rewrite (mapM_validate_rows (fun i => 1 + Z.of_nat i)).
  - apply length_imap.
Qed.

(** C9.  Whatever the request and whatever the backend's condition:
    - a table that meets the constraints of the schema (every row has an id
      and a [first_name], no id occurs twice) still meets them afterwards;
    - an update leaves the id of every row, position by position, as it
      was; a create leaves every row that was there untouched, a new row
      can only follow them; any other request changes no row, rows can only
      go. *)
Theorem ids_and_first_names_kept (q : Request) (err : option string) (t : Table) :
  let t' := snd (perform q err t) in
  (schema t = true -> schema t' = true) /\
  match q with
  | Update _ _ => Profile.id <$> t' = Profile.id <$> t
  | Create _ => t `prefix_of` t'
  | _ => t' `sublist_of` t
  end.
Proof.
  cbn zeta. rewrite snd_perform. split.
  - intros H. destruct err as [e|]; [done|].
    destruct (reaches_commit q t); [|done].
    destruct q as [env|profile|k| |k profile|k]; cbn [effect]; try done.
    + by apply schema_created.
    + by apply schema_updated.
    + by apply schema_deleted.
  - destruct q as [env|profile|k| |k profile|k];
      cbn [reaches_commit effect]; destruct err as [e|]; try done.
    + by eexists.
    + destruct (stored k t); [|done]. by apply ids_updated.
    + destruct (stored k t); [|done]. apply sublist_filter.
Qed.

Lemma ids_and_first_names_kept_witness :
  schema one_row = true /\
  schema (snd (perform (Update 1 ana) None one_row)) = true /\
  Profile.id <$> snd (perform (Update 1 ana) None one_row) = Profile.id <$> one_row.
Proof.
  destruct (ids_and_first_names_kept (Update 1 ana) None one_row) as [H1 H2].
  split; [reflexivity|]. split; [apply H1; reflexivity | exact H2].
Defined.

(** ** Further properties of the handlers *)

Section Frames.

Implicit Types (t : Table) (r p : Profile.t) (k : Z) (profile : ProfileCreate.t).
Implicit Types (err : option string).

(** What a GET answers is decided by the first row with the id. *)
Lemma GET_profile_find k err t :
  fst (GET_profile k err t) =
  match find (has_id k) t with
  | Some r =>
      match validate r with
      | Some P => mkResponse 200 (JProfile P)
      | None => mkResponse 500 InternalServerError
      end
  | None =>
      if fits_int64 k then mkResponse 404 (JDetail "Profile not found")
      else mkResponse 500 InternalServerError
  end.
Proof.
  destruct (find (has_id k) t) as [r|] eqn:E.
  - by rewrite (GET_profile_found k r).
  - apply find_has_id_None in E. destruct (fits_int64 k) eqn:Hk.
    + by rewrite GET_profile_missing.
    + by rewrite GET_profile_overflow.
Qed.

Lemma find_has_id_deleted_ne k k' t :
  k' <> k -> find (has_id k') (deleted k t) = find (has_id k') t.
Proof.
  intros Hne. unfold deleted. induction t as [|x t IH]; [done|].
  rewrite filter_cons. destruct (decide (Profile.id x <> Some k)) as [Hx|Hx]; simpl.
  - by rewrite IH.
  - rewrite IH. apply dec_stable in Hx.
    rewrite (proj2 (has_id_false k' x)); [done|]. rewrite Hx. congruence.
Qed.

Lemma find_has_id_updated_ne k k' p t :
  Profile.id p = Some k -> k' <> k ->
  find (has_id k') (updated k p t) = find (has_id k') t.
Proof.
  intros Hp Hne. unfold updated. induction t as [|x t IH]; [done|]. simpl.
  case_bool_decide as Hx.
  - rewrite (proj2 (has_id_false k' p)) by (rewrite Hp; congruence).
    rewrite (proj2 (has_id_false k' x)) by (rewrite Hx; congruence). exact IH.
  - destruct (has_id k' x); [done | exact IH].
Qed.

Lemma find_has_id_created_ne k profile t :
  k <> next_id t ->
  find (has_id k) (t ++ [row (next_id t) profile]) = find (has_id k) t.
Proof.
  intros Hne. rewrite find_has_id_app. destruct (find (has_id k) t); [done|].
  simpl. rewrite (proj2 (has_id_false k _)); [done|]. simpl. congruence.
Qed.

Lemma updated_updated k p1 p2 t :
  Profile.id p1 = Some k -> updated k p2 (updated k p1 t) = updated k p2 t.
Proof.
  intros Hp. unfold updated. rewrite map_map. apply map_ext. intros x.
  destruct (decide (Profile.id x = Some k)) as [Hx|Hx].
  - rewrite (bool_decide_true (Profile.id x = Some k)) by done.
    by rewrite bool_decide_true.
  - rewrite (bool_decide_false (Profile.id x = Some k)) by done.
    by rewrite bool_decide_false.
Qed.

Lemma deleted_absent k t : stored k t = false -> deleted k t = t.
Proof.
  unfold deleted, stored. induction t as [|x t IH]; [done|]. simpl.
  intros [Hx Ht]%orb_false_iff. apply has_id_false in Hx.
  rewrite filter_cons, decide_True by done. by rewrite IH.
Qed.

Lemma deleted_created k profile t :
  stored k t = false -> deleted k (t ++ [row k profile]) = t.
Proof.
  intros H. unfold deleted. rewrite filter_app.
  fold (deleted k t). rewrite deleted_absent by done.
  rewrite filter_cons, decide_False by (simpl; intros Hne; by apply Hne).
  by rewrite filter_nil, app_nil_r.
Qed.

Lemma stored_created k profile t : stored k (t ++ [row k profile]) = true.
Proof.
  apply stored_true. exists (row k profile). split; [|done].
  apply elem_of_app. right. by left.
Qed.

End Frames.

(** X1.  An update or a delete of an id that no row has answers 500,
    whatever the payload and the backend's condition, and leaves the table
    as it is.  For an id within the signed 64-bit integers the detail is
    "404: Profile not found": the 404 of lines 152 and 174 is raised inside
    the [try] and the [except Exception] of lines 162 and 180 turns it into
    a 500.  For an id beyond them the detail is the text of the driver's
    [OverflowError], caught by the same clause. *)
Theorem write_to_missing_id_answers_500 (profile_id : Z)
    (profile : ProfileCreate.t) (err : option string) (t : Table) :
  stored profile_id t = false ->
  let detail :=
    if fits_int64 profile_id then "404: Profile not found" else overflow_text in
  PUT_profile profile_id profile err t = (mkResponse 500 (JDetail detail), t) /\
  DELETE_profile profile_id err t = (mkResponse 500 (JDetail detail), t).
Proof.
  intros H. cbn zeta. destruct (fits_int64 profile_id) eqn:Hk.
  - split; [by apply PUT_profile_missing | by apply DELETE_profile_missing].
  - split; [by apply PUT_profile_overflow | by apply DELETE_profile_overflow].
Qed.

Lemma write_to_missing_id_answers_500_witness :
  stored 3 two_rows = false /\
  PUT_profile 3 bea (Some "disk I/O error") two_rows =
    (mkResponse 500 (JDetail "404: Profile not found"), two_rows) /\
  DELETE_profile 3 (Some "disk I/O error") two_rows =
    (mkResponse 500 (JDetail "404: Profile not found"), two_rows).
Proof.
  split; [reflexivity|].
  apply (write_to_missing_id_answers_500 3 bea (Some "disk I/O error") two_rows).
  reflexivity.
Defined.

(** X2.  A delete of a stored id on a healthy backend answers 200 with the
    message "Profile deleted successfully"; afterwards a GET of that id
    answers 404, a GET of any other id answers what it answered before,
    and the rows that are left are rows that were there, in their order.
    The id is one the backend can hold, within the signed 64-bit
    integers. *)
Theorem delete_removes_only_its_row (profile_id : Z) (t : Table) :
  fits_int64 profile_id = true ->
  stored profile_id t = true ->
  let '(R, t') := DELETE_profile profile_id None t in
  R = mkResponse 200 (JObject [("message", "Profile deleted successfully")]) /\
  (forall err,
     fst (GET_profile profile_id err t') =
     mkResponse 404 (JDetail "Profile not found")) /\
  (forall k err, k <> profile_id ->
     fst (GET_profile k err t') = fst (GET_profile k err t)) /\
  t' `sublist_of` t.
Proof.
  intros Hk H. rewrite DELETE_profile_healthy by done. split; [done|].
  split; [|split].
  - intros err. rewrite GET_profile_find. by rewrite find_has_id_deleted, Hk.
  - intros k err Hne. rewrite !GET_profile_find.
    by rewrite find_has_id_deleted_ne.
  - apply sublist_filter.
Qed.

Lemma delete_removes_only_its_row_witness :
  fits_int64 1 = true /\ stored 1 two_rows = true /\
  let '(R, t') := DELETE_profile 1 None two_rows in
  R = mkResponse 200 (JObject [("message", "Profile deleted successfully")]) /\
  (forall err,
     fst (GET_profile 1 err t') = mkResponse 404 (JDetail "Profile not found")) /\
  (forall k err, k <> 1 ->
     fst (GET_profile k err t') = fst (GET_profile k err two_rows)) /\
  t' `sublist_of` two_rows.
Proof.
  split; [reflexivity|]. split; [reflexivity|].
  apply (delete_removes_only_its_row 1 two_rows); reflexivity.
Defined.

(** X3.  An update of a stored id on a healthy backend keeps the number of
    rows, and a GET of any other id answers what it answered before. *)
Theorem update_changes_only_its_row (profile_id : Z)
    (profile : ProfileCreate.t) (t : Table) :
  stored profile_id t = true ->
  let '(_, t') := PUT_profile profile_id profile None t in
  length t' = length t /\
  forall k err, k <> profile_id ->
    fst (GET_profile k err t') = fst (GET_profile k err t).
Proof.
  intros H. rewrite PUT_profile_healthy by done. split.
  - unfold updated. apply length_map.
  - intros k err Hne. rewrite !GET_profile_find.
    by rewrite find_has_id_updated_ne.
Qed.

Lemma update_changes_only_its_row_witness :
  stored 2 two_rows = true /\
  let '(_, t') := PUT_profile 2 ana None two_rows in
  length t' = length two_rows /\
  forall k err, k <> 2 ->
    fst (GET_profile k err t') = fst (GET_profile k err two_rows).
Proof.
  split; [reflexivity|].
  apply (update_changes_only_its_row 2 ana two_rows). reflexivity.
Defined.

(** X4.  A create on a healthy backend adds exactly one row, and a GET of
    any id other than the new one, so of every id that was stored, answers
    what it answered before. *)
Theorem create_changes_no_other_row (profile : ProfileCreate.t) (t : Table) :
  let '(_, t') := POST_profiles profile None t in
  length t' = S (length t) /\
  (forall k, stored k t = true -> k <> next_id t) /\
  forall k err, k <> next_id t ->
    fst (GET_profile k err t') = fst (GET_profile k err t).
Proof.
  rewrite POST_profiles_healthy. split; [|split].
  - rewrite length_app. simpl. lia.
  - intros k Hk ->. by rewrite next_id_fresh in Hk.
  - intros k err Hne. rewrite !GET_profile_find.
    by rewrite find_has_id_created_ne.
Qed.

Lemma create_changes_no_other_row_witness :
  let '(_, t') := POST_profiles bea None one_row in
  length t' = S (length one_row) /\
  fst (GET_profile 1 None t') = fst (GET_profile 1 None one_row).
Proof.
  pose proof (create_changes_no_other_row bea one_row) as H.
  destruct (POST_profiles bea None one_row) as [R t'].
  destruct H as (Hlen & _ & Hget). split; [exact Hlen|].
  apply Hget. vm_compute. discriminate.
Defined.

(** X5.  Of two updates of a stored id in a row, only the second counts:
    it answers, and leaves the table, exactly as it would have without the
    first.  In particular an update repeated changes nothing more. *)
Theorem last_update_wins (profile_id : Z) (first second : ProfileCreate.t)
    (t : Table) :
  stored profile_id t = true ->
  PUT_profile profile_id second None
    (snd (PUT_profile profile_id first None t)) =
  PUT_profile profile_id second None t.
Proof.
  intros H. rewrite (PUT_profile_healthy profile_id first) by done. simpl.
  rewrite !PUT_profile_healthy by (done || by apply stored_updated).
  by rewrite updated_updated.
Qed.

Lemma last_update_wins_witness :
  stored 1 two_rows = true /\
  PUT_profile 1 ana None (snd (PUT_profile 1 bea None two_rows)) =
  PUT_profile 1 ana None two_rows.
Proof.
  split; [reflexivity|].
  apply (last_update_wins 1 bea ana two_rows). reflexivity.
Defined.

(** X6.  A delete of the id a create has just answered with undoes the
    create: it answers 200 and the table is again what it was before the
    create. *)
Theorem create_then_delete_restores (profile : ProfileCreate.t) (t : Table) :
  let '(R, t') := POST_profiles profile None t in
  exists P,
    body R = JProfile P /\
    DELETE_profile (ProfileResponse.id P) None t' =
    (mkResponse 200 (JObject [("message", "Profile deleted successfully")]), t).
Proof.
  rewrite POST_profiles_healthy. eexists. split; [done|]. simpl.
  rewrite DELETE_profile_healthy by apply stored_created.
  by rewrite deleted_created by apply next_id_fresh.
Qed.

Section Runs.

Implicit Types (t : Table) (r p : Profile.t) (k : Z) (profile : ProfileCreate.t).
Implicit Types (err : option string).

Lemma schema_perform (q : Request) err t :
  schema t = true -> schema (snd (perform q err t)) = true.
Proof.
  intros H. rewrite snd_perform. destruct err as [e|]; [done|].
  destruct (reaches_commit q t); [|done].
  destruct q as [env|profile|k| |k profile|k]; cbn [effect]; try done.
  - by apply schema_created.
  - by apply schema_updated.
  - by apply schema_deleted.
Qed.

Lemma snd_serve_all_cons (q : Request) err qs t :
  snd (serve_all ((q, err) :: qs) t) = snd (serve_all qs (snd (perform q err t))).
Proof.
  simpl. destruct (perform q err t) as [R t']. simpl.
  by destruct (serve_all qs t').
Qed.

Lemma validate_schema t r :
  schema t = true -> r ∈ t -> is_Some (validate r).
Proof.
  intros [Hall _]%schema_true Hin.
  destruct (proj1 (Forall_forall _ _) Hall r Hin) as [[k Hk] [name Hname]].
  unfold validate. rewrite Hk, Hname. by eexists.
Qed.

Lemma mapM_validate_schema t :
  schema t = true ->
  exists Ps, mapM validate t = Some Ps /\
             Forall2 (fun r P => validate r = Some P) t Ps.
Proof.
  intros H.
  destruct (mapM_is_Some_2 validate t) as [Ps HPs].
  - apply Forall_forall. intros r Hin. by apply (validate_schema t).
  - exists Ps. split; [done|]. by apply mapM_Some_1.
Qed.

(** The loop of lines 155-156 over any list of items. *)
Lemma for_each_setattr (obj : nat) (items : list (string * option string)) :
  forall (st : ObjState) p (s : State),
    db s !! obj = Some (st, p) ->
    for_each items (fun '(key, value) => setattr obj key value) s =
    (Return tt,
     mkState (profiles s) (commit_error s)
       (<[obj := (match items with
                  | [] => st
                  | _ => match st with Persistent => Dirty | _ => st end
                  end,
                  fold_left (fun p kv => Profile.setattr p kv.1 kv.2) items p)]>
          (db s))).
Proof.
  induction items as [|[key value] items IH]; intros st p s H.
  - simpl. unfold ret. destruct s as [t err objs]. simpl in *.
    by rewrite list_insert_id.
  - cbn [for_each]. unfold bind at 1. unfold setattr at 1. rewrite H.
    pose proof (lookup_lt_Some _ _ _ H) as Hlt.
    erewrite IH; [|cbn [db]; by apply list_lookup_insert_eq].
    cbn [profiles commit_error db fold_left fst snd].
    rewrite list_insert_insert_eq. do 4 f_equal.
    destruct items; by destruct st.
Qed.

End Runs.

(** X7.  For the requests that reach a handler, those with an integer
    path id and a body that fits the input shape: whatever the table,
    whatever the backend does at the commit and at the reload, the answer's
    status is 200, 404 or 500; and a 404 is only ever the answer to a GET
    of an id within the signed 64-bit integers that no row has: no write
    and no listing answers 404. *)
Theorem status_is_200_404_or_500 (q : Request)
    (reload_error err : option string) (t : Table) :
  let R := fst (perform_under reload_error q err t) in
  (status_code R = 200 \/ status_code R = 404 \/ status_code R = 500) /\
  (status_code R = 404 ->
   exists k, q = Get k /\ stored k t = false /\ fits_int64 k = true).
Proof.
  cbn zeta. destruct (reaches_commit q t) eqn:Hq.
  - destruct err as [e|].
    + rewrite perform_under_commit_failing by done.
      split; [by right; right | discriminate].
    + destruct reload_error as [x|].
      * rewrite perform_under_reload_failing by done.
        destruct q as [env|profile|k| |k profile|k]; try discriminate;
          cbn [reaches_commit perform] in *.
        -- split; [by right; right | discriminate].
        -- split; [by right; right | discriminate].
        -- rewrite DELETE_profile_healthy by done.
           split; [by left | discriminate].
      * rewrite perform_under_None.
        destruct q as [env|profile|k| |k profile|k]; try discriminate;
          cbn [reaches_commit perform] in *.
        -- rewrite POST_profiles_healthy. split; [by left | discriminate].
        -- rewrite PUT_profile_healthy by done. split; [by left | discriminate].
        -- rewrite DELETE_profile_healthy by done.
           split; [by left | discriminate].
  - destruct q as [env|profile|k| |k profile|k]; try discriminate;
      cbn [reaches_commit] in Hq.
    + split; [by left | discriminate].
    + cbn [perform_under perform]. rewrite GET_profile_find.
      destruct (find (has_id k) t) as [r|] eqn:E.
      * destruct (validate r); (split; [by (left + (right; right)) | discriminate]).
      * apply find_has_id_None in E. destruct (fits_int64 k) eqn:Hk.
        -- split; [by right; left|]. intros _. by exists k.
        -- split; [by right; right | discriminate].
    + cbn [perform_under perform]. rewrite GET_profiles_run.
      destruct (mapM validate t); (split; [by (left + (right; right)) | discriminate]).
    + rewrite perform_under_update_unstored by done.
      split; [by right; right | discriminate].
    + cbn [perform_under perform]. destruct (fits_int64 k) eqn:Hk.
      * rewrite DELETE_profile_missing by done.
        split; [by right; right | discriminate].
      * rewrite DELETE_profile_overflow by done.
        split; [by right; right | discriminate].
Qed.

Lemma status_is_200_404_or_500_witness :
  status_code (fst (perform_under None (Get 3) None two_rows)) = 404 /\
  exists k, Get 3 = Get k /\ stored k two_rows = false /\ fits_int64 k = true.
Proof.
  split; [reflexivity|].
  apply (status_is_200_404_or_500 (Get 3) None None two_rows). reflexivity.
Defined.

(** X8.  Every handler that opens a session leaves it closed, holding no
    instance, on every way out: found or not, committed or failed, and
    whatever the state it started from. *)
Theorem session_closed_on_every_exit (s : State) :
  (forall profile, db (snd (create_profile profile s)) = []) /\
  (forall k, db (snd (get_profile k s)) = []) /\
  db (snd (get_all_profiles s)) = [] /\
  (forall k profile, db (snd (update_profile k profile s)) = []) /\
  (forall k, db (snd (delete_profile k s)) = []).
Proof.
  destruct s as [t err objs]. split; [|split; [|split; [|split]]].
  - intros profile. destruct err as [e|].
    + by rewrite create_profile_failing.
    + by rewrite create_profile_healthy.
  - intros k. destruct (find (has_id k) t) as [r|] eqn:E.
    + by rewrite (get_profile_found k r).
    + destruct (fits_int64 k) eqn:Hk.
      * by rewrite get_profile_missing.
      * by rewrite get_profile_overflow.
  - by rewrite get_all_profiles_run.
  - intros k profile. destruct (find (has_id k) t) as [r|] eqn:E.
    + destruct err as [e|].
      * by rewrite (update_profile_failing k profile r).
      * by rewrite (update_profile_healthy k profile r).
    + destruct (fits_int64 k) eqn:Hk.
      * by rewrite update_profile_missing.
      * by rewrite update_profile_overflow.
  - intros k. destruct (find (has_id k) t) as [r|] eqn:E.
    + destruct err as [e|].
      * by rewrite (delete_profile_failing k r).
      * by rewrite (delete_profile_healthy k r).
    + destruct (fits_int64 k) eqn:Hk.
      * by rewrite delete_profile_missing.
      * by rewrite delete_profile_overflow.
Qed.

(** X10.  The root endpoint answers 200 with the same three keys whatever
    the table and the backend's condition.  Its [database] is "SQLite"
    exactly when the engine was created with the relaxed thread check, that
    is when the configured URL starts with "sqlite", as it does when the
    variable is not set; for every other URL it is "PostgreSQL", whichever
    backend the URL names. *)
Theorem root_reports_the_backend (env err : option string) (t : Table) :
  exists label,
    GET_root env err t =
    (mkResponse 200
       (JObject [("message", "Lornexa Backend API"); ("status", "running");
                 ("database", label)]), t) /\
    (label = "SQLite" <->
     connect_args (DATABASE_URL env) = [("check_same_thread", false)]) /\
    (label = "PostgreSQL" <-> connect_args (DATABASE_URL env) = []) /\
    (env = None -> label = "SQLite").
Proof.
  unfold GET_root, serve, read_root, ret, connect_args.
  destruct (String.prefix "sqlite" (DATABASE_URL env)) eqn:E.
  - exists "SQLite". by repeat split.
  - exists "PostgreSQL". repeat split; try done.
    intros ->. vm_compute in E. discriminate.
Qed.

Lemma root_reports_the_backend_witness :
  exists label,
    GET_root None None [] =
    (mkResponse 200
       (JObject [("message", "Lornexa Backend API"); ("status", "running");
                 ("database", label)]), []) /\
    label = "SQLite".
Proof.
  destruct (root_reports_the_backend None None []) as (label & H & _ & _ & Hdef).
  exists label. split; [exact H | apply Hdef; reflexivity].
Defined.

(** X11.  The loop of lines 155-156, on any instance of the session: it
    writes the eight fields of the payload over the instance's columns,
    [None] where the payload has none, keeps the instance's id, marks a
    persistent instance as modified, and touches neither another instance
    nor the table. *)
Theorem update_loop_overwrites_every_column (obj : nat) (st : ObjState)
    (p : Profile.t) (profile : ProfileCreate.t) (s : State) :
  db s !! obj = Some (st, p) ->
  for_each (ProfileCreate.dict profile)
    (fun '(key, value) => setattr obj key value) s =
  (Return tt,
   mkState (profiles s) (commit_error s)
     (<[obj := (match st with Persistent => Dirty | _ => st end,
                Profile.mk (Profile.id p)
                  (Some (ProfileCreate.first_name profile))
                  (ProfileCreate.last_name profile)
                  (ProfileCreate.gender profile)
                  (ProfileCreate.country profile)
                  (ProfileCreate.ethnicity profile)
                  (ProfileCreate.marital_status profile)
                  (ProfileCreate.date_of_birth profile)
                  (ProfileCreate.autistic profile))]> (db s))).
Proof.
  intros H. by rewrite (for_each_setattr obj _ st p s H).
Qed.

Lemma update_loop_overwrites_every_column_witness :
  for_each (ProfileCreate.dict ana)
    (fun '(key, value) => setattr 1%nat key value)
    (mkState [] None [(Persistent, row 1 ana_pt); (Persistent, row 2 bea)]) =
  (Return tt,
   mkState [] None [(Persistent, row 1 ana_pt); (Dirty, row 2 ana)]).
Proof.
  apply (update_loop_overwrites_every_column 1 Persistent (row 2 bea) ana
           (mkState [] None [(Persistent, row 1 ana_pt); (Persistent, row 2 bea)])).
  reflexivity.
Defined.

(** X12.  The constraints of the schema hold along every run: from a table
    that meets them, any requests in any order, under any conditions of the
    backend, lead to a table that meets them. *)
Theorem schema_kept_along_runs (qs : list (Request * option string)) (t : Table) :
  schema t = true -> schema (snd (serve_all qs t)) = true.
Proof.
  revert t. induction qs as [|[q err] qs IH]; intros t H; [done|].
  rewrite snd_serve_all_cons. by apply IH, schema_perform.
Qed.

Lemma schema_kept_along_runs_witness :
  schema [] = true /\
  schema (snd (serve_all
                 [(Create ana, None); (Create bea, Some "disk I/O error");
                  (Create bea, None); (Update 2 ana_pt, None);
                  (Delete 1, None); (Delete 1, None); (Create ana, None)] []))
  = true.
Proof.
  split; [reflexivity|]. apply schema_kept_along_runs. reflexivity.
Defined.

(** X13.  On a table that meets the schema, a GET of a stored id answers
    200 with the fields of a row of the table that has this id, and the id
    in the answer is the id that was asked for. *)
Theorem get_answers_the_stored_row (profile_id : Z) (err : option string)
    (t : Table) :
  schema t = true ->
  stored profile_id t = true ->
  exists r P,
    r ∈ t /\ Profile.id r = Some profile_id /\ validate r = Some P /\
    ProfileResponse.id P = profile_id /\
    GET_profile profile_id err t = (mkResponse 200 (JProfile P), t).
Proof.
  intros Hs [r Hr]%stored_find.
  destruct (find_has_id_Some _ _ _ Hr) as [Hin Hid].
  destruct (validate_schema t r Hs Hin) as [P HP].
  exists r, P. repeat split; try done.
  - unfold validate in HP. rewrite Hid in HP.
    destruct (Profile.first_name r); [|done]. by injection HP as <-.
  - rewrite (GET_profile_found profile_id r) by done. by rewrite HP.
Qed.

Lemma get_answers_the_stored_row_witness :
  schema two_rows = true /\ stored 2 two_rows = true /\
  exists r P,
    r ∈ two_rows /\ Profile.id r = Some 2 /\ validate r = Some P /\
    ProfileResponse.id P = 2 /\
    GET_profile 2 None two_rows = (mkResponse 200 (JProfile P), two_rows).
Proof.
  split; [reflexivity|]. split; [reflexivity|].
  apply (get_answers_the_stored_row 2 None two_rows); reflexivity.
Defined.

(** X14.  On a table that meets the schema, the listing answers 200 with
    one entry for every row, in the order of the rows, each with the fields
    of its row; on the empty table it answers 200 with the empty list. *)
Theorem listing_has_one_entry_per_row (err : option string) (t : Table) :
  schema t = true ->
  exists Ps,
    GET_profiles err t = (mkResponse 200 (JProfiles Ps), t) /\
    Forall2 (fun r P => validate r = Some P) t Ps /\
    length Ps = length t /\
    (t = [] -> Ps = []).
Proof.
  intros (Ps & HPs & Hall)%mapM_validate_schema. exists Ps.
  pose proof (Forall2_length _ _ _ Hall) as Hlen.
  rewrite GET_profiles_run, HPs. repeat split; try done.
  intros ->. by destruct Ps.
Qed.

Lemma listing_has_one_entry_per_row_witness :
  schema two_rows = true /\
  exists Ps,
    GET_profiles None two_rows = (mkResponse 200 (JProfiles Ps), two_rows) /\
    Forall2 (fun r P => validate r = Some P) two_rows Ps /\
    length Ps = length two_rows /\
    (two_rows = [] -> Ps = []).
Proof.
  split; [reflexivity|].
  apply (listing_has_one_entry_per_row None two_rows). reflexivity.
Defined.

Section UniqueIds.

Implicit Types (t : Table) (r p : Profile.t) (k : Z).

Lemma stored_false_notin k t :
  Some k ∉ Profile.id <$> t -> stored k t = false.
Proof.
  intros Hnot. destruct (stored k t) eqn:E; [|done].
  apply stored_true in E as (r & Hin & Hid). destruct Hnot.
  apply list_elem_of_fmap. by exists r.
Qed.

Lemma deleted_at k r t :
  NoDup (Profile.id <$> t) ->
  find (has_id k) t = Some r ->
  exists i : nat, t !! i = Some r /\ deleted k t = delete i t.
Proof.
  induction t as [|x t IH]; [discriminate|].
  rewrite fmap_cons. intros [Hx Hnd]%NoDup_cons. simpl.
  destruct (has_id k x) eqn:E.
  - intros [= ->]. exists 0%nat. split; [done|]. apply has_id_true in E.
    unfold deleted. rewrite filter_cons, decide_False by (intros Hne; by apply Hne).
    fold (deleted k t). apply deleted_absent, stored_false_notin. by rewrite <- E.
  - intros H. destruct (IH Hnd H) as (i & Hi & Hdel). exists (S i).
    split; [done|]. apply has_id_false in E.
    unfold deleted. rewrite filter_cons, decide_True by done.
    fold (deleted k t). by rewrite Hdel.
Qed.

Lemma updated_absent k p t : stored k t = false -> updated k p t = t.
Proof.
  unfold updated, stored. induction t as [|x t IH]; [done|]. simpl.
  intros [Hx Ht]%orb_false_iff. apply has_id_false in Hx.
  rewrite bool_decide_false by done. by rewrite IH.
Qed.

Lemma updated_at k p r t :
  NoDup (Profile.id <$> t) ->
  find (has_id k) t = Some r ->
  exists i : nat, t !! i = Some r /\ updated k p t = <[i := p]> t.
Proof.
  induction t as [|x t IH]; [discriminate|].
  rewrite fmap_cons. intros [Hx Hnd]%NoDup_cons. simpl.
  destruct (has_id k x) eqn:E.
  - intros [= ->]. exists 0%nat. split; [done|]. apply has_id_true in E.
    rewrite bool_decide_true by done. simpl. f_equal.
    apply updated_absent, stored_false_notin. by rewrite <- E.
  - intros H. destruct (IH Hnd H) as (i & Hi & Hupd). exists (S i).
    split; [done|]. apply has_id_false in E.
    rewrite bool_decide_false by done. simpl. f_equal. exact Hupd.
Qed.

End UniqueIds.

(** X15.  On a table that meets the schema, a delete of a stored id on a
    healthy backend takes out exactly one row, the one with that id, and
    leaves every other row where it was in the order: the listing is
    shorter by one. *)
Theorem delete_takes_out_one_row (profile_id : Z) (t : Table) :
  schema t = true ->
  stored profile_id t = true ->
  exists (i : nat) (r : Profile.t),
    t !! i = Some r /\ Profile.id r = Some profile_id /\
    snd (DELETE_profile profile_id None t) = delete i t /\
    S (length (snd (DELETE_profile profile_id None t))) = length t.
Proof.
  intros [_ Hnd]%schema_true H. rewrite DELETE_profile_healthy by done.
  destruct (stored_find _ _ H) as [r Hr].
  destruct (find_has_id_Some _ _ _ Hr) as [_ Hid].
  destruct (deleted_at _ _ _ Hnd Hr) as (i & Hi & Hdel).
  exists i, r. simpl. rewrite Hdel. repeat split; try done.
  rewrite length_delete by by eexists.
  pose proof (lookup_lt_Some _ _ _ Hi). lia.
Qed.

Lemma delete_takes_out_one_row_witness :
  schema two_rows = true /\ stored 1 two_rows = true /\
  exists (i : nat) (r : Profile.t),
    two_rows !! i = Some r /\ Profile.id r = Some 1 /\
    snd (DELETE_profile 1 None two_rows) = delete i two_rows /\
    S (length (snd (DELETE_profile 1 None two_rows))) = length two_rows.
Proof.
  split; [reflexivity|]. split; [reflexivity|].
  apply (delete_takes_out_one_row 1 two_rows); reflexivity.
Defined.

(** X16.  On a table that meets the schema, an update of a stored id on a
    healthy backend rewrites exactly one row, the one with that id, in
    place: the table afterwards is the table before with the payload under
    that id written at the row's position. *)
Theorem update_rewrites_one_row (profile_id : Z) (profile : ProfileCreate.t)
    (t : Table) :
  schema t = true ->
  stored profile_id t = true ->
  exists (i : nat) (r : Profile.t),
    t !! i = Some r /\ Profile.id r = Some profile_id /\
    snd (PUT_profile profile_id profile None t) =
    <[i := row profile_id profile]> t.
Proof.
  intros [_ Hnd]%schema_true H. rewrite PUT_profile_healthy by done.
  destruct (stored_find _ _ H) as [r Hr].
  destruct (find_has_id_Some _ _ _ Hr) as [_ Hid].
  destruct (updated_at _ (row profile_id profile) _ _ Hnd Hr) as (i & Hi & Hupd).
  by exists i, r.
Qed.

Lemma update_rewrites_one_row_witness :
  schema two_rows = true /\ stored 2 two_rows = true /\
  exists (i : nat) (r : Profile.t),
    two_rows !! i = Some r /\ Profile.id r = Some 2 /\
    snd (PUT_profile 2 ana None two_rows) = <[i := row 2 ana]> two_rows.
Proof.
  split; [reflexivity|]. split; [reflexivity|].
  apply (update_rewrites_one_row 2 ana two_rows); reflexivity.
Defined.

(** X17.  When the commit of a create or an update goes through and the
    reload of the row that follows it raises an error, the answer is a 500
    whose detail is the text of that error, and the table holds the whole
    effect of the write all the same; a delete reloads nothing and answers
    as on any backend whose commit goes through. *)
Theorem reload_failure_answers_500_after_commit (q : Request) (x : string)
    (t : Table) :
  reaches_commit q t = true ->
  perform_under (Some x) q None t =
  match q with
  | Delete _ =>
      (mkResponse 200 (JObject [("message", "Profile deleted successfully")]),
       effect q t)
  | _ => (mkResponse 500 (JDetail x), effect q t)
  end.
Proof.
  intros H. rewrite perform_under_reload_failing by done.
  destruct q as [env|profile|k| |k profile|k]; try done.
  cbn [perform reaches_commit effect] in *. by apply DELETE_profile_healthy.
Qed.

Lemma reload_failure_answers_500_after_commit_witness :
  reaches_commit (Update 2 ana) two_rows = true /\
  perform_under (Some "connection lost") (Update 2 ana) None two_rows =
  (mkResponse 500 (JDetail "connection lost"), [row 1 ana_pt; row 2 ana]).
Proof.
  split; [reflexivity|].
  apply (reload_failure_answers_500_after_commit (Update 2 ana)
           "connection lost" two_rows).
  reflexivity.
Defined.
